(** * simple-ab: the A/B test flow of [simpleab/simpleab.py]

    A shallow embedding of [DummyStorage], [BaseAB], [SimpleAB],
    [ConfigurableAB] and [quick_test], and the properties of the
    selection-and-persistence contract proved about it.

    Python objects are records; a method is a function in a state and
    exception monad; the storage collaborator is an object on a heap, so
    that two test instances can hold the same collaborator. *)

From Stdlib Require Import Ascii String.
From stdpp Require Import base option list strings gmap functions sorting.

Local Open Scope string_scope.

(** ** Python values, exceptions, truth *)

(** The exceptions that the module raises itself ([ABTestError],
    [NotImplementedError]), the ones the interpreter raises on its
    behalf ([AttributeError], [KeyError], [IndexError], [TypeError]), and
    [Foreign] for whatever code supplied by the caller (a collaborator,
    a selector, a side's behaviour) raises. *)
Inductive exn : Type :=
| ABTestError (msg : string)
| NotImplementedError
| AttributeError (attr : string)
| KeyError (key : string)
| IndexError
| TypeError
| Foreign (what : string).

Inductive outcome (A : Type) : Type :=
| Return (a : A)
| Raise (e : exn).
Arguments Return {A} a.
Arguments Raise {A} e.

(** A computation over a state [Σ] that returns or raises; the state
    reached is kept in both cases, as Python keeps the mutations made
    before an exception. *)
Definition M (Σ A : Type) : Type := Σ → outcome A * Σ.

Definition ret {Σ A} (a : A) : M Σ A := fun σ => (Return a, σ).
Definition raise {Σ A} (e : exn) : M Σ A := fun σ => (Raise e, σ).
Definition of_outcome {Σ A} (o : outcome A) : M Σ A := fun σ => (o, σ).
Definition bind {Σ A B} (m : M Σ A) (k : A → M Σ B) : M Σ B :=
  fun σ => match m σ with
           | (Return a, σ') => k a σ'
           | (Raise e, σ') => (Raise e, σ')
           end.

Declare Scope py_scope.
Delimit Scope py_scope with py.
Notation "x <- m ;; k" := (bind m (fun x => k))
  (at level 100, m at next level, right associativity) : py_scope.
Notation "m ;; k" := (bind m (fun _ => k))
  (at level 100, right associativity) : py_scope.
Local Open Scope py_scope.

(** Python's truth value testing ([if x:], [not x]). *)
Class Truth (A : Type) := truthy : A → bool.
Global Instance str_truth : Truth string :=
  fun s => negb (String.eqb s "").
Global Instance list_truth {A} : Truth (list A) :=
  fun l => match l with [] => false | _ :: _ => true end.
Global Instance dict_truth {A} : Truth (gmap string A) :=
  fun m => negb (bool_decide (m = ∅)).
(** [None] is false; any other value has its own truth. *)
Global Instance option_truth {A} `{Truth A} : Truth (option A) :=
  fun o => match o with None => false | Some a => truthy a end.

(** ['%s' % x] for a string or [None]. *)
Definition fmt (x : option string) : string := default "None" x.
Definition dquote : string := String "034"%char EmptyString.
Definition quoted (s : string) : string := dquote +:+ s +:+ dquote.

(** A slot of an instance [__dict__]: reading an unbound one when the
    class has no attribute of that name raises [AttributeError]. *)
Inductive slot (A : Type) : Type :=
| Unbound
| Bound (a : A).
Arguments Unbound {A}.
Arguments Bound {A} a.

Definition getattr {A} (attr : string) (s : slot A) : outcome A :=
  match s with
  | Bound a => Return a
  | Unbound => Raise (AttributeError attr)
  end.

(** ** The storage collaborator *)

(** A reference to a collaborator object. *)
Definition loc : Type := nat.

(** The interface of [DummyStorage]: four methods on an object whose
    state is [St].  Each may mutate the object and may raise.  [name] is
    passed as [self.name] is, [None] included; [sides] as
    [self.allowed_sides] is.  A collaborator object defines neither
    [__nonzero__] nor [__len__], so [if self.storage:] asks whether the
    attribute holds an object or [None]. *)
Module Storage.
Class Storage (Identity St : Type) : Type := {
  create : option string → option (list string) → M St unit;
  set_side : Identity → option string → string → M St unit;
  get_side : Identity → option string → M St (option string);
  record : Identity → option string → option string → M St unit
}.
End Storage.

(** [DummyStorage]: every method body is [pass], so each returns [None]
    and leaves the object as it is. *)
Module DummyStorage.
Definition DummyStorage {Identity : Type} : Storage.Storage Identity unit := {|
  Storage.create _ _ := ret tt;
  Storage.set_side _ _ _ := ret tt;
  Storage.get_side _ _ := ret None;
  Storage.record _ _ _ := ret tt
|}.
End DummyStorage.

(** What a call can see and change outside the test instance: the
    collaborator objects, and the process-wide [random] generator as
    the tape of the numbers it will draw. *)
Record World (St : Type) : Type := {
  heap : loc → St;
  tape : nat → nat
}.
Arguments heap {St} w.
Arguments tape {St} w.

(** The world once the collaborator at [l] has become [st]. *)
Definition update_storage {St} (w : World St) (l : loc) (st : St) : World St :=
  {| heap := <[l := st]> (heap w); tape := tape w |}.

(** A method call on the collaborator at [l]. *)
Definition on_storage {St A} (l : loc) (op : M St A) : M (World St) A :=
  fun w => let '(r, st) := op (heap w l) in
           (r, {| heap := <[l := st]> (heap w); tape := tape w |}).

(** [random.choice(seq)]: the element at a drawn index below
    [len(seq)]; [IndexError] on an empty sequence. *)
Definition random_choice {St} (seq : list string) : M (World St) string :=
  fun w => let w' := {| heap := heap w; tape := fun i => tape w (S i) |} in
           match seq !! (tape w 0 `mod` length seq) with
           | Some x => (Return x, w')
           | None => (Raise IndexError, w')
           end.

(** ** BaseAB *)

Module BaseAB.
Section BaseAB.
Context {Identity V Args St : Type} `{!Storage.Storage Identity St}.

(** An instance: the attributes that [BaseAB.__init__] binds, [name]
    (the class attribute [None] unless a subclass or the instance
    rebinds it), and [fields], what a subclass adds. *)
Record instance (D : Type) : Type := {
  identity : Identity;
  storage : option loc;
  _side : option string;
  name : option string;
  fields : D
}.
Arguments identity {D} self : rename.
Arguments storage {D} self : rename.
Arguments _side {D} self : rename.
Arguments name {D} self : rename.
Arguments fields {D} self : rename.

(** [self._side = side] *)
Definition assign_side {D} (self : instance D) (side : string) : instance D :=
  {| identity := identity self; storage := storage self; _side := Some side;
     name := name self; fields := fields self |}.

(** What a subclass provides: the [allowed_sides] attribute (a list, or
    [None] as in [BaseAB] itself; a property may raise) and the two
    extension points.  [args] stands for [*args, **kwargs] once
    [force_side] is popped.  Reading [allowed_sides] does not depend on
    the side last selected. *)
Class Variant (D : Type) : Type := {
  allowed_sides : instance D → outcome (option (list string));
  select_side : instance D → Args → M (World St) (option string);
  apply_side : instance D → string → Args → M (World St) V;
  allowed_sides_assign_side : ∀ self side,
    allowed_sides (assign_side self side) = allowed_sides self
}.

(** The same class with another selection strategy. *)
Definition with_select_side {D} (C : Variant D)
    (select : instance D → Args → M (World St) (option string)) : Variant D :=
  {| allowed_sides := @allowed_sides D C;
     select_side := select;
     apply_side := @apply_side D C;
     allowed_sides_assign_side := @allowed_sides_assign_side D C |}.

(** A method: a computation over the instance and the world. *)
Definition Method (D A : Type) : Type := M (instance D * World St) A.

Definition get_self {D} : Method D (instance D) :=
  fun σ => (Return σ.1, σ).
Definition lift {D A} (m : M (World St) A) : Method D A :=
  fun σ => let '(r, w) := m σ.2 in (r, (σ.1, w)).
Definition set_self_side {D} (side : string) : Method D unit :=
  fun σ => (Return tt, (assign_side σ.1 side, σ.2)).

Context {D : Type} `{!Variant D}.

Definition __init__ (class_name : option string) (d : D)
    (identity : Identity) (storage : option loc) : M (World St) (instance D) :=
  let self := {| identity := identity; storage := storage; _side := None;
                 name := class_name; fields := d |} in
  match storage with
  | Some l =>
      sides <- of_outcome (allowed_sides self) ;;
      on_storage l (Storage.create (name self) sides) ;;
      ret self
  | None => ret self
  end.

Definition current_side (self : instance D) : option string := _side self.

Definition not_named : exn := ABTestError "Test should be named".
Definition no_sides (self : instance D) : exn :=
  ABTestError ("Sides not given for " +:+ quoted (fmt (name self)) +:+ " test").
Definition unknown_side (self : instance D) (side : option string) : exn :=
  ABTestError ("Unknown side " +:+ quoted (fmt side) +:+ " for "
               +:+ quoted (fmt (name self)) +:+ " test").

(** [side not in self.allowed_sides] *)
Definition not_in (side : string) (sides : option (list string)) : outcome bool :=
  match sides with
  | Some l => Return (negb (bool_decide (side ∈ l)))
  | None => Raise TypeError
  end.

Definition test (args : Args) (force_side : option string) : Method D V :=
  self <- get_self ;;
  (* check that test instance properly configured *)
  if negb (truthy (name self)) then raise not_named else
  sides <- of_outcome (allowed_sides self) ;;
  if negb (truthy sides) then raise (no_sides self) else
  (* select AB side, use forced value if given *)
  let side := force_side in
  side <- (if negb (truthy side) then
             match storage self with
             | Some l =>
                 (* trying to load side associated later *)
                 lift (on_storage l (Storage.get_side (identity self) (name self)))
             | None => ret side
             end
           else ret side) ;;
  side <- (if negb (truthy side) then
             (* if no luck, select new one *)
             lift (select_side self args)
           else ret side) ;;
  match side with
  | None => raise (unknown_side self side)
  | Some s =>
      if negb (truthy s) then raise (unknown_side self side) else
      sides <- of_outcome (allowed_sides self) ;;
      unknown <- of_outcome (not_in s sides) ;;
      if (unknown : bool) then raise (unknown_side self side) else
      (* ok, we know side, let's save it and get its value *)
      set_self_side s ;;
      self <- get_self ;;
      match storage self with
      | Some l => lift (on_storage l (Storage.set_side (identity self) (name self) s))
      | None => ret tt
      end ;;
      value <- lift (apply_side self s args) ;;
      ret value
  end.

Definition record (side : option string) : Method D unit :=
  self <- get_self ;;
  match storage self with
  | Some l => lift (on_storage l (Storage.record (identity self) (name self) side))
  | None => ret tt
  end.

(** *** The stages of [test]

    The three steps of [test], each under a name of its own, for the
    statements below; [test_stages] shows that [test] is their
    sequence. *)

(** "check that test instance properly configured" *)
Definition configured (self : instance D) : outcome unit :=
  if negb (truthy (name self)) then Raise not_named else
  match allowed_sides self with
  | Raise e => Raise e
  | Return sides => if negb (truthy sides) then Raise (no_sides self) else Return tt
  end.

(** "select AB side, use forced value if given", up to the side it
    settles on. *)
Definition resolve (self : instance D) (args : Args) (force_side : option string)
    : M (World St) (option string) :=
  side <- (if negb (truthy force_side) then
             match storage self with
             | Some l => on_storage l (Storage.get_side (identity self) (name self))
             | None => ret force_side
             end
           else ret force_side) ;;
  if negb (truthy side) then select_side self args else ret side.

(** [if not side or side not in self.allowed_sides: raise ...] *)
Definition validate (self : instance D) (side : option string) : outcome string :=
  match side with
  | None => Raise (unknown_side self side)
  | Some s =>
      if negb (truthy s) then Raise (unknown_side self side) else
      match allowed_sides self with
      | Raise e => Raise e
      | Return sides =>
          match not_in s sides with
          | Raise e => Raise e
          | Return true => Raise (unknown_side self side)
          | Return false => Return s
          end
      end
  end.

(** "ok, we know side, let's save it and get its value": what [test]
    does with the side that the selection settled on. *)
Definition conclude (args : Args) (side : option string) : Method D V :=
  self <- get_self ;;
  s <- of_outcome (validate self side) ;;
  set_self_side s ;;
  self <- get_self ;;
  match storage self with
  | Some l => lift (on_storage l (Storage.set_side (identity self) (name self) s))
  | None => ret tt
  end ;;
  lift (apply_side self s args).

(** The side that a call gets past the validation with, if it gets
    that far. *)
Definition accepted (args : Args) (force_side : option string)
    (σ : instance D * World St) : option string :=
  match configured σ.1 with
  | Raise _ => None
  | Return _ =>
      match resolve σ.1 args force_side σ.2 with
      | (Raise _, _) => None
      | (Return side, _) =>
          match validate σ.1 side with
          | Raise _ => None
          | Return s => Some s
          end
      end
  end.

(** A sequence of [test] calls on one instance, whatever each call
    returns or raises. *)
Fixpoint run (calls : list (Args * option string)) (σ : instance D * World St)
    : instance D * World St :=
  match calls with
  | [] => σ
  | (args, force_side) :: calls => run calls (test args force_side σ).2
  end.

(** The side accepted by the last call of the sequence that got past
    the validation; [none] if there was no such call. *)
Fixpoint last_accepted (calls : list (Args * option string))
    (σ : instance D * World St) (none : option string) : option string :=
  match calls with
  | [] => none
  | (args, force_side) :: calls =>
      last_accepted calls (test args force_side σ).2
                    (match accepted args force_side σ with
                     | Some s => Some s
                     | None => none
                     end)
  end.

(** *** The error kinds

    The module has the one exception class [ABTestError]; what tells a
    configuration error from a validation error is the statement that
    raises it. *)
Definition ConfigurationError (self : instance D) (e : exn) : Prop :=
  e = not_named ∨ e = no_sides self.
Definition ValidationError (self : instance D) (e : exn) : Prop :=
  ∃ side, e = unknown_side self side.

End BaseAB.

Arguments instance Identity D : clear implicits.
Arguments Build_instance {Identity D} identity storage _side name fields.
Arguments identity {Identity D} self : rename.
Arguments storage {Identity D} self : rename.
Arguments _side {Identity D} self : rename.
Arguments name {Identity D} self : rename.
Arguments fields {Identity D} self : rename.
Arguments Variant Identity V Args St D : clear implicits.
End BaseAB.

(** [BaseAB] used as it stands: [allowed_sides] is the class attribute
    [None] and both extension points raise. *)
Module Abstract.
Section Abstract.
Context {Identity V Args St : Type} `{!Storage.Storage Identity St}.

#[refine, global] Instance variant :
  BaseAB.Variant Identity V Args St unit := {|
  BaseAB.allowed_sides _ := Return None;
  BaseAB.select_side _ _ := raise NotImplementedError;
  BaseAB.apply_side _ _ _ := raise NotImplementedError
|}.
Proof. intros; reflexivity. Defined.

End Abstract.
End Abstract.

(** ** SimpleAB *)

Module SimpleAB.
Section SimpleAB.
Context {Identity V Args St : Type} `{!Storage.Storage Identity St}.

(** What a subclass (or the instance) binds to a name of its own: a
    method, called with the arguments of [test], or anything that is not
    callable. *)
Inductive member : Type :=
| Behaviour (body : Args → M (World St) V)
| Data.

Definition callable (m : option member) : bool :=
  match m with
  | Some (Behaviour _) => true
  | _ => false
  end.

(** The names that every instance has from [BaseAB] and [SimpleAB]; the
    ones [object] adds all start and end with two underscores. *)
Definition inherited : list string :=
  ["__init__"; "__repr__"; "_side"; "allowed_sides"; "apply_side";
   "current_side"; "identity"; "name"; "record"; "select_side"; "storage";
   "test"].

Definition str_le (x y : string) : Prop := String.leb x y = true.
#[global] Instance str_le_dec x y : Decision (str_le x y) :=
  decide (String.leb x y = true).

(** [dir(self)]: the attribute names, without duplicates, sorted. *)
Definition dir (self : BaseAB.instance Identity (gmap string member))
    : list string :=
  merge_sort str_le (elements (dom (BaseAB.fields self) ∪ list_to_set inherited)).

Definition allowed_sides (self : BaseAB.instance Identity (gmap string member)) : list string :=
  List.filter (fun x => (String.length x =? 1)%nat && (String.leb "A" x && String.leb x "Z"))
              (dir self).

Definition select_side (self : BaseAB.instance Identity (gmap string member)) (args : Args)
    : M (World St) (option string) :=
  x <- random_choice (allowed_sides self) ;; ret (Some x).

Definition not_implemented (self : BaseAB.instance Identity (gmap string member))
    (side : string) : exn :=
  ABTestError ("Side " +:+ quoted side +:+ " is not implemented for "
               +:+ quoted (fmt (BaseAB.name self)) +:+ " test").

(** [getattr(self, side, None)] is looked up among the members that the
    subclass declares.  This is what [getattr] finds for a [side] of
    one character, which every side that [test] lets through is: the
    attributes that an instance inherits ([inherited], and the names of
    [object]) all have two characters or more.  For such a longer name
    [getattr] would find the inherited attribute; that case is outside
    this definition, and nothing below is stated about it. *)
Definition apply_side (self : BaseAB.instance Identity (gmap string member)) (side : string)
    (args : Args) : M (World St) V :=
  let method := BaseAB.fields self !! side in
  if negb (callable method) then raise (not_implemented self side) else
  match method with
  | Some (Behaviour body) => body args
  | _ => raise (not_implemented self side)
  end.

#[refine, global] Instance variant :
  BaseAB.Variant Identity V Args St (gmap string member) := {|
  BaseAB.allowed_sides self := Return (Some (allowed_sides self));
  BaseAB.select_side := select_side;
  BaseAB.apply_side := apply_side
|}.
Proof. intros; reflexivity. Defined.

End SimpleAB.

Arguments member V Args St : clear implicits.
Arguments Behaviour {V Args St} body.
Arguments Data {V Args St}.
End SimpleAB.

(** ** ConfigurableAB *)

Module ConfigurableAB.
Section ConfigurableAB.
Context {Identity V Args St : Type} `{!Storage.Storage Identity St}.

(** The instance attributes that [ConfigurableAB.__init__] binds after
    it has called [BaseAB.__init__]. *)
Record config : Type := {
  sides : slot (option (gmap string V));
  selector : slot (option (Args → M (World St) (option string)))
}.

(** [d.keys()], a list as the doctest of the class prints it. *)
Definition keys (d : gmap string V) : list string := (map_to_list d).*1.

Definition allowed_sides (self : BaseAB.instance Identity config)
    : outcome (option (list string)) :=
  match getattr "sides" (sides (BaseAB.fields self)) with
  | Raise e => Raise e
  | Return None => Return (Some [])
  | Return (Some d) => if truthy d then Return (Some (keys d)) else Return (Some [])
  end.

Definition choice (seq : option (list string)) : M (World St) (option string) :=
  match seq with
  | Some l => x <- random_choice l ;; ret (Some x)
  | None => raise TypeError
  end.

Definition select_side (self : BaseAB.instance Identity config) (args : Args)
    : M (World St) (option string) :=
  sel <- of_outcome (getattr "selector" (selector (BaseAB.fields self))) ;;
  match sel with
  | Some f => f args
  | None => seq <- of_outcome (allowed_sides self) ;; choice seq
  end.

(** [self.sides[side]] *)
Definition apply_side (self : BaseAB.instance Identity config)
    (side : string) (args : Args) : M (World St) V :=
  d <- of_outcome (getattr "sides" (sides (BaseAB.fields self))) ;;
  match d with
  | Some d => match d !! side with
              | Some value => ret value
              | None => raise (KeyError side)
              end
  | None => raise TypeError
  end.

#[refine, global] Instance variant :
  BaseAB.Variant Identity V Args St config := {|
  BaseAB.allowed_sides := allowed_sides;
  BaseAB.select_side := select_side;
  BaseAB.apply_side := apply_side
|}.
Proof. intros; reflexivity. Defined.

(** [self.name = name], [self.sides = sides], [self.selector = selector] *)
Definition bind_name (self : BaseAB.instance Identity config) (v : option string)
    : BaseAB.instance Identity config :=
  {| BaseAB.identity := BaseAB.identity self;
     BaseAB.storage := BaseAB.storage self;
     BaseAB._side := BaseAB._side self;
     BaseAB.name := v;
     BaseAB.fields := BaseAB.fields self |}.
Definition bind_sides (self : BaseAB.instance Identity config)
    (v : option (gmap string V)) : BaseAB.instance Identity config :=
  {| BaseAB.identity := BaseAB.identity self;
     BaseAB.storage := BaseAB.storage self;
     BaseAB._side := BaseAB._side self;
     BaseAB.name := BaseAB.name self;
     BaseAB.fields := {| sides := Bound v;
                         selector := selector (BaseAB.fields self) |} |}.
Definition bind_selector (self : BaseAB.instance Identity config)
    (v : option (Args → M (World St) (option string)))
    : BaseAB.instance Identity config :=
  {| BaseAB.identity := BaseAB.identity self;
     BaseAB.storage := BaseAB.storage self;
     BaseAB._side := BaseAB._side self;
     BaseAB.name := BaseAB.name self;
     BaseAB.fields := {| sides := sides (BaseAB.fields self);
                         selector := Bound v |} |}.

(** The new object has no attribute of its own yet: [name] is the class
    attribute [None], [sides] and [selector] are unbound until the
    assignments that follow the call of [BaseAB.__init__]. *)
Definition __init__ (identity : Identity) (storage : option loc)
    (name : option string) (sides : option (gmap string V))
    (selector : option (Args → M (World St) (option string)))
    : M (World St) (BaseAB.instance Identity config) :=
  self <- BaseAB.__init__ None {| ConfigurableAB.sides := Unbound;
                                  ConfigurableAB.selector := Unbound |}
                          identity storage ;;
  let self := bind_name self name in
  let self := bind_sides self sides in
  let self := bind_selector self selector in
  ret self.

End ConfigurableAB.

Arguments config V Args St : clear implicits.
Arguments Build_config {V Args St} sides selector.
Arguments sides {V Args St} c.
Arguments selector {V Args St} c.

(** [quick_test(name, sides, selector, **kwargs)], with [identity] and
    [storage] the keywords that the constructor takes; [no_args] is the
    empty argument list of its [.test()]. *)
Definition quick_test {Identity V Args St : Type} `{!Storage.Storage Identity St}
    (name : option string) (sides : option (gmap string V))
    (selector : option (Args → M (World St) (option string)))
    (identity : Identity) (storage : option loc) (no_args : Args)
    : M (World St) V :=
  fun w => match __init__ identity storage name sides selector w with
           | (Return self, w) =>
               let '(r, (_, w)) := BaseAB.test no_args None (self, w) in (r, w)
           | (Raise e, w) => (Raise e, w)
           end.

End ConfigurableAB.

(** ** Collaborators and instances used in the examples *)

(** A collaborator that keeps its calls, newest first, and answers
    [get_side] with the side that the latest [set_side] associated with
    the identity and the test. *)
Module Recorder.

Inductive event : Type :=
| Created (name : option string) (sides : option (list string))
| SideSet (identity : option string) (name : option string) (side : string)
| SideRead (identity : option string) (name : option string)
| Recorded (identity : option string) (name : option string) (side : option string).

Fixpoint stored (identity name : option string) (log : list event) : option string :=
  match log with
  | [] => None
  | SideSet i n side :: log =>
      if decide (i = identity ∧ n = name) then Some side else stored identity name log
  | _ :: log => stored identity name log
  end.

Definition Recorder : Storage.Storage (option string) (list event) := {|
  Storage.create name sides := fun log => (Return tt, Created name sides :: log);
  Storage.set_side identity name side :=
    fun log => (Return tt, SideSet identity name side :: log);
  Storage.get_side identity name :=
    fun log => (Return (stored identity name log), SideRead identity name :: log);
  Storage.record identity name side :=
    fun log => (Return tt, Recorded identity name side :: log)
|}.

(** A collaborator whose [set_side] fails. *)
Definition Broken : Storage.Storage (option string) (list event) := {|
  Storage.create name sides := fun log => (Return tt, Created name sides :: log);
  Storage.set_side identity name side := raise (Foreign "IOError");
  Storage.get_side identity name :=
    fun log => (Return (stored identity name log), SideRead identity name :: log);
  Storage.record identity name side :=
    fun log => (Return tt, Recorded identity name side :: log)
|}.

(** A world whose collaborators have seen no call, and whose generator
    draws [0, 1, 2, ...]. *)
Definition fresh : World (list event) := {| heap := fun _ => []; tape := fun i => i |}.

End Recorder.

(** A subclass of [BaseAB] that declares its sides in the class
    attribute [allowed_sides], always selects ['B'], and gives a side
    the value ['Side ' + side]. *)
Module Listed.

#[refine, global] Instance variant {Identity Args St : Type} :
  BaseAB.Variant Identity string Args St (list string) := {|
  BaseAB.allowed_sides self := Return (Some (BaseAB.fields self));
  BaseAB.select_side _ _ := ret (Some "B");
  BaseAB.apply_side _ side _ := ret ("Side " +:+ side)
|}.
Proof. intros; reflexivity. Defined.

End Listed.

(** The instances of the examples: the identity is [None], the test is
    ['MyTest'], a side's value is a string, [test] takes no argument
    but [force_side], and the collaborators are the ones of
    [Recorder]. *)
Module Examples.
Import Recorder.

(** [ConfigurableAB(name='MyTest', sides=sides, selector=selector)];
    [storage] is what its attribute of that name holds, assigned after
    the construction when it is a collaborator. *)
Definition configurable (storage : option loc) (sides : gmap string string)
    (selector : option (unit → M (World (list event)) (option string)))
    : BaseAB.instance (option string) (ConfigurableAB.config string unit (list event)) :=
  {| BaseAB.identity := None; BaseAB.storage := storage; BaseAB._side := None;
     BaseAB.name := Some "MyTest";
     BaseAB.fields := {| ConfigurableAB.sides := Bound (Some sides);
                         ConfigurableAB.selector := Bound selector |} |}.

(** An instance of [class MyTest(SimpleAB)] with [name = 'MyTest'] and
    the given members. *)
Definition simple (storage : option loc)
    (members : gmap string (SimpleAB.member string unit (list event)))
    : BaseAB.instance (option string) (gmap string (SimpleAB.member string unit (list event))) :=
  {| BaseAB.identity := None; BaseAB.storage := storage; BaseAB._side := None;
     BaseAB.name := Some "MyTest"; BaseAB.fields := members |}.

(** An instance of a [Listed] subclass with [name = 'MyTest']. *)
Definition listed (storage : option loc) (sides : list string)
    : BaseAB.instance (option string) (list string) :=
  {| BaseAB.identity := None; BaseAB.storage := storage; BaseAB._side := None;
     BaseAB.name := Some "MyTest"; BaseAB.fields := sides |}.

(** [def A(self): return 'Side A'] and the like. *)
Definition says (value : string) : SimpleAB.member string unit (list event) :=
  SimpleAB.Behaviour (fun _ => ret value).

Definition ab_sides : gmap string string := {[ "A" := "Side A"; "B" := "Side B" ]}.
Definition ab_members : gmap string (SimpleAB.member string unit (list event)) :=
  {[ "A" := says "Side A"; "B" := says "Side B" ]}.

(** A world in which the collaborator at [0] holds [side] for the
    identity [None] and the test ['MyTest']. *)
Definition holding (side : string) : World (list event) :=
  {| heap := <[0 := [SideSet None (Some "MyTest") side]]> (heap fresh);
     tape := tape fresh |}.

End Examples.

(** A subclass of [BaseAB] that declares [allowed_sides] as a class
    attribute and overrides neither extension point: [select_side] and
    [apply_side] are the ones of [BaseAB], which raise
    [NotImplementedError]. *)
Module Declared.

#[refine] Definition variant {Identity V Args St : Type} :
  BaseAB.Variant Identity V Args St (list string) := {|
  BaseAB.allowed_sides self := Return (Some (BaseAB.fields self));
  BaseAB.select_side _ _ := raise NotImplementedError;
  BaseAB.apply_side _ _ _ := raise NotImplementedError
|}.
Proof. intros; reflexivity. Defined.

End Declared.

(** An instance of [class MyTest(SimpleAB)] on a [DummyStorage], in a
    world of such collaborators. *)
Module DummyExamples.

Definition quiet : World () := {| heap := fun _ => (); tape := fun i => i |}.

Definition simple (storage : option loc)
    : BaseAB.instance (option string) (gmap string (SimpleAB.member string () ())) :=
  {| BaseAB.identity := None; BaseAB.storage := storage; BaseAB._side := None;
     BaseAB.name := Some "MyTest";
     BaseAB.fields := {[ "A" := SimpleAB.Behaviour (fun _ => ret "Side A");
                         "B" := SimpleAB.Behaviour (fun _ => ret "Side B") ]} |}.

End DummyExamples.

(** * Properties *)

Lemma truthy_str (s : string) : truthy s = true ↔ s ≠ "".
Proof.
  unfold truthy, str_truth. rewrite negb_true_iff.
  split.
  - intros E ->. discriminate.
  - intros N. apply String.eqb_neq. exact N.
Qed.

Lemma falsy_side (side : option string) :
  truthy side = false ↔ side = None ∨ side = Some "".
Proof.
  destruct side as [s|]; cbv [truthy option_truth str_truth].
  - rewrite negb_false_iff, String.eqb_eq.
    split; [intros ->; by right | intros [?| [= ->]]; done].
  - split; [by left | done].
Qed.

Section BaseAB_stages.
Context {Identity V Args St : Type} `{!Storage.Storage Identity St}.
Context {D : Type} {C : BaseAB.Variant Identity V Args St D}.
Implicit Types (self : BaseAB.instance Identity D) (w : World St)
  (args : Args) (side force_side : option string).

(** What [conclude] does, by the verdict of the validation. *)
Lemma conclude_validate args side self w :
  BaseAB.conclude args side (self, w) =
  match BaseAB.validate self side with
  | Raise e => (Raise e, (self, w))
  | Return s =>
      let self' := BaseAB.assign_side self s in
      match BaseAB.storage self with
      | Some l =>
          match on_storage l (Storage.set_side (BaseAB.identity self)
                                               (BaseAB.name self) s) w with
          | (Return _, w') =>
              let '(r, w'') := BaseAB.apply_side self' s args w' in (r, (self', w''))
          | (Raise e, w') => (Raise e, (self', w'))
          end
      | None => let '(r, w') := BaseAB.apply_side self' s args w in (r, (self', w'))
      end
  end.
Proof.
  unfold BaseAB.conclude, bind, BaseAB.get_self, of_outcome; simpl.
  destruct (BaseAB.validate self side) as [s|e]; [|done]. simpl.
  destruct (BaseAB.storage self) as [l|]; simpl.
  - unfold BaseAB.lift at 1. simpl.
    destruct (on_storage _ _ w) as [[[]|e] w']; [|done].
    unfold BaseAB.lift; simpl. by destruct (BaseAB.apply_side _ _ _ _).
  - unfold ret, BaseAB.lift; simpl. by destruct (BaseAB.apply_side _ _ _ _).
Qed.

(** [test] is its three stages in sequence. *)
Lemma test_stages args force_side self w :
  BaseAB.test args force_side (self, w) =
  match BaseAB.configured self with
  | Raise e => (Raise e, (self, w))
  | Return _ =>
      match BaseAB.resolve self args force_side w with
      | (Raise e, w') => (Raise e, (self, w'))
      | (Return side, w') => BaseAB.conclude args side (self, w')
      end
  end.
Proof.
  unfold BaseAB.test, BaseAB.configured, BaseAB.resolve.
  unfold bind, ret, raise, of_outcome, BaseAB.lift, BaseAB.get_self; simpl.
  destruct (negb (truthy (BaseAB.name self))); [done|].
  destruct (BaseAB.allowed_sides self) as [sides|e] eqn:Esides; [|done].
  destruct (negb (truthy sides)); [done|].
  repeat (case_match; simplify_eq/=; try done);
    rewrite conclude_validate; unfold BaseAB.validate, BaseAB.set_self_side;
    rewrite ?Esides; simpl;
    repeat (case_match; simplify_eq/=; try done).
Qed.

Lemma configured_inv self :
  BaseAB.configured self = Return () →
  truthy (BaseAB.name self) = true ∧
  ∃ sides, BaseAB.allowed_sides self = Return (Some sides) ∧ sides ≠ [].
Proof.
  unfold BaseAB.configured. intros Hc.
  destruct (truthy (BaseAB.name self)); [|done]. split; [done|].
  destruct (BaseAB.allowed_sides self) as [[[|x sides]|]|]; try done.
  by exists (x :: sides).
Qed.

Lemma configured_intro self sides :
  truthy (BaseAB.name self) = true →
  BaseAB.allowed_sides self = Return (Some sides) → sides ≠ [] →
  BaseAB.configured self = Return ().
Proof.
  unfold BaseAB.configured. intros -> -> Hne. by destruct sides.
Qed.

Lemma validate_Return self side s :
  BaseAB.validate self side = Return s ↔
  side = Some s ∧ s ≠ "" ∧
  ∃ sides, BaseAB.allowed_sides self = Return (Some sides) ∧ s ∈ sides.
Proof.
  unfold BaseAB.validate, BaseAB.not_in. split.
  - destruct side as [s'|]; [|done].
    destruct (truthy s') eqn:Ht; [|done]. simpl.
    destruct (BaseAB.allowed_sides self) as [[sides|]|]; try done.
    case_bool_decide; simpl; [|done]. intros [= ->].
    split; [done|]. split; [by apply truthy_str|]. by exists sides.
  - intros (-> & Hs & sides & -> & Hin). apply truthy_str in Hs. rewrite Hs. simpl.
    by rewrite bool_decide_true.
Qed.

Lemma validate_unknown self side sides :
  BaseAB.allowed_sides self = Return (Some sides) →
  (∀ s, side = Some s → s ∉ sides) →
  BaseAB.validate self side = Raise (BaseAB.unknown_side self side).
Proof.
  unfold BaseAB.validate, BaseAB.not_in. intros -> Hout.
  destruct side as [s|]; [|done].
  destruct (truthy s); [|done]. simpl.
  rewrite bool_decide_false; [done|]. by apply Hout.
Qed.

(** The instance after a call: the side is assigned exactly when the
    call got past the validation, and nothing else changes. *)
Lemma test_instance args force_side σ :
  (BaseAB.test args force_side σ).2.1 =
  match BaseAB.accepted args force_side σ with
  | Some s => BaseAB.assign_side σ.1 s
  | None => σ.1
  end.
Proof.
  destruct σ as [self w]. rewrite test_stages. unfold BaseAB.accepted; simpl.
  destruct (BaseAB.configured self); [|done].
  destruct (BaseAB.resolve self args force_side w) as [[side|e] w']; [|done].
  rewrite conclude_validate.
  destruct (BaseAB.validate self side); [|done]. simpl.
  repeat (case_match; simplify_eq/=; try done).
Qed.

Lemma test_Return_accepted args force_side σ v σ' :
  BaseAB.test args force_side σ = (Return v, σ') →
  ∃ s, BaseAB.accepted args force_side σ = Some s ∧ σ'.1 = BaseAB.assign_side σ.1 s.
Proof.
  intros Ht. pose proof (test_instance args force_side σ) as Hi.
  rewrite Ht in Hi. simpl in Hi.
  destruct σ as [self w]. rewrite test_stages in Ht.
  unfold BaseAB.accepted in *; simpl in *.
  destruct (BaseAB.configured self); [|done].
  destruct (BaseAB.resolve self args force_side w) as [[side|e] w']; [|done].
  rewrite conclude_validate in Ht.
  destruct (BaseAB.validate self side) as [s|]; [|done]. by exists s.
Qed.

Lemma resolve_forced self w args s :
  s ≠ "" → BaseAB.resolve self args (Some s) w = (Return (Some s), w).
Proof.
  intros Hs%truthy_str. unfold BaseAB.resolve, bind, ret.
  cbv [truthy option_truth]. fold (truthy s). rewrite Hs. simpl.
  cbv [truthy option_truth]. fold (truthy s). by rewrite Hs.
Qed.

Lemma resolve_stored self w args force_side l S st' :
  truthy force_side = false → BaseAB.storage self = Some l →
  Storage.get_side (BaseAB.identity self) (BaseAB.name self) (heap w l)
    = (Return (Some S), st') →
  S ≠ "" →
  BaseAB.resolve self args force_side w = (Return (Some S), update_storage w l st').
Proof.
  intros Hf Hst Hget HS%truthy_str. unfold BaseAB.resolve, bind, ret, on_storage.
  rewrite Hf, Hst. simpl. rewrite Hget.
  cbv [truthy option_truth]. fold (truthy S). by rewrite HS.
Qed.

Lemma resolve_absent self w args force_side l stored st' :
  truthy force_side = false → BaseAB.storage self = Some l →
  Storage.get_side (BaseAB.identity self) (BaseAB.name self) (heap w l)
    = (Return stored, st') →
  truthy stored = false →
  BaseAB.resolve self args force_side w
  = BaseAB.select_side self args (update_storage w l st').
Proof.
  intros Hf Hst Hget Hs. unfold BaseAB.resolve, bind, ret, on_storage.
  rewrite Hf, Hst. simpl. rewrite Hget. by rewrite Hs.
Qed.

Lemma resolve_detached self w args force_side :
  truthy force_side = false → BaseAB.storage self = None →
  BaseAB.resolve self args force_side w = BaseAB.select_side self args w.
Proof.
  intros Hf Hst. unfold BaseAB.resolve, bind, ret. rewrite Hf, Hst. simpl.
  by rewrite Hf.
Qed.

Lemma select_then_conclude self w args :
  (side <- BaseAB.lift (BaseAB.select_side self args) ;;
   BaseAB.conclude args side) (self, w)
  = match BaseAB.select_side self args w with
    | (Raise e, w') => (Raise e, (self, w'))
    | (Return side, w') => BaseAB.conclude args side (self, w')
    end.
Proof.
  unfold bind at 1. unfold BaseAB.lift. simpl.
  by destruct (BaseAB.select_side self args w) as [[side|e] w'].
Qed.

End BaseAB_stages.

Section BaseAB_properties.
Context {Identity V Args St : Type} `{!Storage.Storage Identity St}.
Context {D : Type} {C : BaseAB.Variant Identity V Args St D}.
Implicit Types (self : BaseAB.instance Identity D) (w : World St)
  (args : Args) (side force_side : option string).

(** A call that does not reach the selection strategy is the same call
    under any other strategy. *)
Lemma test_select_irrelevant self w args force_side side w' select :
  BaseAB.resolve self args force_side w = (Return side, w') →
  BaseAB.resolve (Variant0 := BaseAB.with_select_side C select) self args force_side w
    = (Return side, w') →
  BaseAB.test (Variant0 := BaseAB.with_select_side C select) args force_side (self, w)
  = BaseAB.test args force_side (self, w).
Proof.
  intros Hr Hr'. rewrite !test_stages.
  change (BaseAB.configured (Variant0 := BaseAB.with_select_side C select) self)
    with (BaseAB.configured self).
  destruct (BaseAB.configured self); [|done]. rewrite Hr, Hr'.
  by rewrite !conclude_validate.
Qed.

(** C4. [test] raises a configuration error when [name] is unset or
    empty, or when [allowed_sides] is empty; the instance and the world
    are then as before the call: no side was resolved, nothing was
    assigned, the collaborator was not called. *)
Theorem test_configuration_error self w args force_side :
  truthy (BaseAB.name self) = false ∨
  (∃ sides, BaseAB.allowed_sides self = Return sides ∧ truthy sides = false) →
  ∃ e, BaseAB.test args force_side (self, w) = (Raise e, (self, w)) ∧
       BaseAB.ConfigurationError self e.
Proof.
  intros Hbad. rewrite test_stages. unfold BaseAB.configured, BaseAB.ConfigurationError.
  destruct (truthy (BaseAB.name self)) eqn:Hn; simpl.
  - destruct Hbad as [?|(sides & -> & ->)]; [done|]. simpl. eauto.
  - eauto.
Qed.

(** C5, amended.  For a properly configured instance and a non-empty
    forced side that is not in [allowed_sides], [test] raises a
    validation error and leaves the instance, [current_side] included,
    and the world as they were. *)
Theorem test_forced_unknown self w args s sides :
  truthy (BaseAB.name self) = true →
  BaseAB.allowed_sides self = Return (Some sides) → sides ≠ [] →
  s ≠ "" → s ∉ sides →
  ∃ e, BaseAB.test args (Some s) (self, w) = (Raise e, (self, w)) ∧
       BaseAB.ValidationError self e ∧
       BaseAB.current_side (BaseAB.test args (Some s) (self, w)).2.1
       = BaseAB.current_side self.
Proof.
  intros Hn Ha Hne Hs Hout. exists (BaseAB.unknown_side self (Some s)).
  assert (BaseAB.test args (Some s) (self, w)
          = (Raise (BaseAB.unknown_side self (Some s)), (self, w))) as ->.
  { rewrite test_stages, (configured_intro _ _ Hn Ha Hne).
    unfold BaseAB.resolve, bind, ret. apply truthy_str in Hs.
    cbv [truthy option_truth]. fold (truthy s). rewrite Hs. simpl.
    cbv [truthy option_truth]. fold (truthy s). rewrite Hs. simpl.
    rewrite conclude_validate, (validate_unknown _ _ _ Ha); [done|].
    by intros ? [= <-]. }
  split; [done|]. split; [by exists (Some s)|done].
Qed.

(** C2.  After a [test] call that returns, [current_side] is a member
    of [allowed_sides]; and when the selection settles on a side
    outside [allowed_sides], whether it was forced, stored or freshly
    selected, [test] raises a validation error and assigns nothing. *)
Theorem test_side_allowed self w args force_side :
  (∀ v self' w',
     BaseAB.test args force_side (self, w) = (Return v, (self', w')) →
     ∃ s sides, BaseAB.current_side self' = Some s ∧
                BaseAB.allowed_sides self' = Return (Some sides) ∧ s ∈ sides) ∧
  (∀ side w1 sides,
     BaseAB.configured self = Return () →
     BaseAB.resolve self args force_side w = (Return side, w1) →
     BaseAB.allowed_sides self = Return (Some sides) →
     (∀ s, side = Some s → s ∉ sides) →
     ∃ e, BaseAB.test args force_side (self, w) = (Raise e, (self, w1)) ∧
          BaseAB.ValidationError self e).
Proof.
  split.
  - intros v self' w' Ht.
    destruct (test_Return_accepted _ _ _ _ _ Ht) as (s & Hacc & Hself). simpl in Hself.
    unfold BaseAB.accepted in Hacc; simpl in Hacc.
    destruct (BaseAB.configured self); [|done].
    destruct (BaseAB.resolve self args force_side w) as [[side|] w1]; [|done].
    destruct (BaseAB.validate self side) as [s'|] eqn:Hv; [|done].
    injection Hacc as ->. apply validate_Return in Hv as (_ & _ & sides & Ha & Hin).
    exists s, sides. subst self'. rewrite BaseAB.allowed_sides_assign_side. done.
  - intros side w1 sides Hc Hr Ha Hout.
    exists (BaseAB.unknown_side self side). split; [|by exists side].
    by rewrite test_stages, Hc, Hr, conclude_validate, (validate_unknown _ _ _ Ha).
Qed.


(** C3, amended.  On a properly configured instance the side is the
    forced one if it is non-empty; otherwise the non-empty side that
    the attached collaborator returns, and then the selection strategy
    is not invoked: the call is the same under any other strategy, and
    if the stored side is allowed it becomes the current side and its
    value is returned once the collaborator has persisted it;
    otherwise the one that the selection strategy returns.  A second
    instance with the same name and sides, on the collaborator that a
    returned call persisted side [S] to, to which the collaborator
    gives [S] back, resolves to [S], again under any strategy. *)
Theorem test_precedence self w args :
  BaseAB.configured self = Return () →
  (∀ s, s ≠ "" →
     BaseAB.test args (Some s) (self, w) = BaseAB.conclude args (Some s) (self, w)) ∧
  (∀ force_side l S st',
     truthy force_side = false → BaseAB.storage self = Some l →
     Storage.get_side (BaseAB.identity self) (BaseAB.name self) (heap w l)
       = (Return (Some S), st') →
     S ≠ "" →
     BaseAB.test args force_side (self, w)
       = BaseAB.conclude args (Some S) (self, update_storage w l st') ∧
     (∀ select,
        BaseAB.test (Variant0 := BaseAB.with_select_side C select)
                    args force_side (self, w)
        = BaseAB.test args force_side (self, w)) ∧
     (∀ sides,
        BaseAB.allowed_sides self = Return (Some sides) → S ∈ sides →
        BaseAB.current_side (BaseAB.test args force_side (self, w)).2.1 = Some S ∧
        ∀ w2,
          on_storage l (Storage.set_side (BaseAB.identity self) (BaseAB.name self) S)
                     (update_storage w l st') = (Return (), w2) →
          (BaseAB.test args force_side (self, w)).1
          = (BaseAB.apply_side (BaseAB.assign_side self S) S args w2).1)) ∧
  (∀ force_side,
     truthy force_side = false → BaseAB.storage self = None →
     BaseAB.test args force_side (self, w)
     = (side <- BaseAB.lift (BaseAB.select_side self args) ;;
        BaseAB.conclude args side) (self, w)) ∧
  (∀ force_side v self' w' l S st' (self2 : BaseAB.instance Identity D) args2,
     BaseAB.test args force_side (self, w) = (Return v, (self', w')) →
     BaseAB.current_side self' = Some S →
     BaseAB.storage self = Some l → BaseAB.storage self2 = Some l →
     BaseAB.identity self2 = BaseAB.identity self →
     BaseAB.name self2 = BaseAB.name self →
     BaseAB.allowed_sides self2 = BaseAB.allowed_sides self →
     Storage.get_side (BaseAB.identity self) (BaseAB.name self) (heap w' l)
       = (Return (Some S), st') →
     BaseAB.test args2 None (self2, w')
       = BaseAB.conclude args2 (Some S) (self2, update_storage w' l st') ∧
     BaseAB.validate self2 (Some S) = Return S ∧
     BaseAB.current_side (BaseAB.test args2 None (self2, w')).2.1 = Some S ∧
     ∀ select,
       BaseAB.test (Variant0 := BaseAB.with_select_side C select)
                   args2 None (self2, w')
       = BaseAB.test args2 None (self2, w')).
Proof.
  intros Hc. split; [|split; [|split]].
  - intros s Hs. by rewrite test_stages, Hc, resolve_forced.
  - intros force_side l S st' Hf Hst Hget HS.
    assert (BaseAB.test args force_side (self, w)
            = BaseAB.conclude args (Some S) (self, update_storage w l st')) as Ht.
    { by rewrite test_stages, Hc, (resolve_stored _ _ _ _ _ _ _ Hf Hst Hget HS). }
    split; [done|]. split.
    + intros select. eapply test_select_irrelevant.
      * by apply resolve_stored.
      * by apply (resolve_stored (C := BaseAB.with_select_side C select)).
    + intros sides Ha Hin.
      assert (BaseAB.validate self (Some S) = Return S) as Hv.
      { apply validate_Return. split; [done|]. split; [done|]. by exists sides. }
      rewrite Ht, conclude_validate, Hv, Hst. simpl. split.
      * by repeat (case_match; simplify_eq/=).
      * intros w2 ->. by destruct (BaseAB.apply_side _ _ _ _).
  - intros force_side Hf Hst.
    by rewrite test_stages, Hc, resolve_detached, select_then_conclude.
  - intros force_side v self' w' l S st' self2 args2 Ht Hcur Hst Hst2 Hid Hnm Hal Hget.
    destruct (test_Return_accepted _ _ _ _ _ Ht) as (s & Hacc & Hself).
    simpl in Hself. subst self'. injection Hcur as ->.
    unfold BaseAB.accepted in Hacc; simpl in Hacc. rewrite Hc in Hacc.
    destruct (BaseAB.resolve self args force_side w) as [[side|] w1]; [|done].
    destruct (BaseAB.validate self side) as [s'|] eqn:Hv; [|done].
    injection Hacc as ->. apply validate_Return in Hv as (_ & HS & sides & Ha & Hin).
    destruct (configured_inv _ Hc) as (Hn & sides' & Ha' & Hne).
    assert (BaseAB.configured self2 = Return ()) as Hc2.
    { apply (configured_intro _ sides'); [by rewrite Hnm|by rewrite Hal|done]. }
    assert (BaseAB.validate self2 (Some S) = Return S) as Hv2.
    { apply validate_Return. split; [done|]. split; [done|].
      exists sides. by rewrite Hal. }
    rewrite <- Hid, <- Hnm in Hget.
    assert (BaseAB.test args2 None (self2, w')
            = BaseAB.conclude args2 (Some S) (self2, update_storage w' l st')) as Ht2.
    { by rewrite test_stages, Hc2, (resolve_stored self2 w' args2 None l S st' eq_refl Hst2 Hget HS). }
    split; [done|]. split; [done|]. split.
    + rewrite test_instance. unfold BaseAB.accepted; simpl.
      by rewrite Hc2, (resolve_stored self2 w' args2 None l S st' eq_refl Hst2 Hget HS), Hv2.
    + intros select. eapply test_select_irrelevant.
      * by apply resolve_stored.
      * by apply (resolve_stored (C := BaseAB.with_select_side C select)).
Qed.

(** C6, amended.  After any sequence of [test] calls, [current_side]
    is the side of the last call that got past the validation, whether
    that call then returned or raised while persisting or applying the
    side, and what it was before if no call got that far; a call that
    returns is one that got past the validation; a call that did not
    leaves the instance as it was; and a new instance has no current
    side.  Reading [current_side] is a projection of the instance. *)
Theorem current_side_last_accepted calls σ :
  BaseAB.current_side (BaseAB.run calls σ).1
    = BaseAB.last_accepted calls σ (BaseAB.current_side σ.1) ∧
  (∀ args force_side v σ',
     BaseAB.test args force_side σ = (Return v, σ') →
     BaseAB.accepted args force_side σ = BaseAB.current_side σ'.1 ∧
     is_Some (BaseAB.current_side σ'.1)) ∧
  (∀ args force_side,
     BaseAB.accepted args force_side σ = None →
     (BaseAB.test args force_side σ).2.1 = σ.1) ∧
  (∀ class_name d identity storage w self w',
     BaseAB.__init__ class_name d identity storage w = (Return self, w') →
     BaseAB.current_side self = None).
Proof.
  split; [|split; [|split]].
  - revert σ. induction calls as [|[args force_side] calls IH]; intros σ; [done|].
    simpl. rewrite IH. f_equal. rewrite test_instance.
    by destruct (BaseAB.accepted args force_side σ).
  - intros args force_side v σ' Ht.
    destruct (test_Return_accepted _ _ _ _ _ Ht) as (s & -> & ->). by eauto.
  - intros args force_side Hacc. by rewrite test_instance, Hacc.
  - intros class_name d identity storage w self w'.
    unfold BaseAB.__init__, bind, ret, of_outcome.
    repeat (case_match; simplify_eq/=; try done); by intros [= <- _].
Qed.

(** C9, amended.  With a collaborator attached, [record] is the
    collaborator's [record] called with the identity, the name and the
    side exactly as given, [None] when it is omitted: the current side
    is not substituted; with none attached it returns and changes
    nothing. *)
Theorem record_forwards self w side :
  (∀ l, BaseAB.storage self = Some l →
     BaseAB.record side (self, w)
     = let '(r, st) := Storage.record (BaseAB.identity self) (BaseAB.name self)
                                      side (heap w l) in
       (r, (self, update_storage w l st))) ∧
  (BaseAB.storage self = None →
     BaseAB.record side (self, w) = (Return (), (self, w))).
Proof.
  unfold BaseAB.record, bind, BaseAB.get_self, BaseAB.lift, on_storage; simpl.
  split.
  - intros l ->. simpl. by destruct (Storage.record _ _ _ _).
  - by intros ->.
Qed.

End BaseAB_properties.

Section ConfigurableAB_properties.
Context {Identity V Args St : Type} `{!Storage.Storage Identity St}.
Implicit Types (self : BaseAB.instance Identity (ConfigurableAB.config V Args St))
  (w : World St) (args : Args) (d : gmap string V).

Lemma elem_of_keys d s : s ∈ ConfigurableAB.keys d ↔ is_Some (d !! s).
Proof.
  unfold ConfigurableAB.keys. rewrite list_elem_of_fmap. split.
  - intros ([k v] & -> & Hin). apply elem_of_map_to_list in Hin. by exists v.
  - intros [v Hv]. exists (s, v). split; [done|]. by apply elem_of_map_to_list.
Qed.

Lemma configurable_allowed_sides self d s :
  ConfigurableAB.sides (BaseAB.fields self) = Bound (Some d) → is_Some (d !! s) →
  BaseAB.allowed_sides self = Return (Some (ConfigurableAB.keys d)) ∧
  s ∈ ConfigurableAB.keys d.
Proof.
  intros Hd Hs. split; [|by apply elem_of_keys].
  simpl. unfold ConfigurableAB.allowed_sides. rewrite Hd. simpl.
  unfold truthy, dict_truth. rewrite bool_decide_false; [done|].
  intros ->. rewrite lookup_empty in Hs. by destruct Hs.
Qed.

(** Without a collaborator the constructor returns the configured
    instance. *)
Lemma configurable_init_detached (identity : Identity) name sides selector w :
  ConfigurableAB.__init__ (V := V) (Args := Args) identity None name sides selector w
  = (Return {| BaseAB.identity := identity; BaseAB.storage := None;
               BaseAB._side := None; BaseAB.name := name;
               BaseAB.fields := {| ConfigurableAB.sides := Bound sides;
                                   ConfigurableAB.selector := Bound selector |} |},
     w).
Proof. reflexivity. Qed.

(** C1, amended.  On a [ConfigurableAB] with a non-empty name and a
    mapping, for every non-empty forced side that is a key of the
    mapping, and provided that the [set_side] of an attached
    collaborator returns, [test] returns the value that the mapping
    holds for the forced side, and [current_side] is then the forced
    side. *)
Theorem configurable_test_forced self w args d s v :
  truthy (BaseAB.name self) = true →
  ConfigurableAB.sides (BaseAB.fields self) = Bound (Some d) →
  d !! s = Some v →
  s ≠ "" →
  (∀ l, BaseAB.storage self = Some l →
        (Storage.set_side (BaseAB.identity self) (BaseAB.name self) s (heap w l)).1
        = Return ()) →
  (BaseAB.test args (Some s) (self, w)).1 = Return v ∧
  BaseAB.current_side (BaseAB.test args (Some s) (self, w)).2.1 = Some s.
Proof.
  intros Hn Hd Hv Hs Hset.
  destruct (configurable_allowed_sides self d s Hd) as [Ha Hin]; [by eexists|].
  assert (BaseAB.configured self = Return ()) as Hc.
  { apply (configured_intro _ _ Hn Ha). intros E. rewrite E in Hin.
    by apply not_elem_of_nil in Hin. }
  assert (BaseAB.validate self (Some s) = Return s) as Hval.
  { apply validate_Return. split; [done|]. split; [done|]. by eexists. }
  rewrite test_stages, Hc, resolve_forced, conclude_validate, Hval by done.
  simpl. unfold ConfigurableAB.apply_side, bind, of_outcome, ret. simpl.
  rewrite Hd. simpl. rewrite Hv.
  destruct (BaseAB.storage self) as [l|]; [|done].
  specialize (Hset l eq_refl). unfold on_storage.
  destruct (Storage.set_side _ _ _ _) as [r st]. simpl in Hset. by subst r.
Qed.

(** C8: the constructor with a collaborator attached.  [BaseAB.__init__]
    reads [self.allowed_sides] for the [create] call while [sides] is
    not bound yet: the constructor raises [AttributeError], and the
    collaborator is not called. *)
Theorem configurable_init_attached (identity : Identity) l name sides selector w :
  ConfigurableAB.__init__ (V := V) (Args := Args)
                          identity (Some l) name sides selector w
  = (Raise (AttributeError "sides"), w).
Proof. reflexivity. Qed.

End ConfigurableAB_properties.

Section SimpleAB_properties.
Context {Identity V Args St : Type} `{!Storage.Storage Identity St}.
Implicit Types (self : BaseAB.instance Identity (gmap string (SimpleAB.member V Args St)))
  (w : World St) (args : Args).

Lemma upper_letter (x : string) :
  (String.length x =? 1)%nat && (String.leb "A" x && String.leb x "Z") = true ↔
  ∃ c, x = String c "" ∧ (65 ≤ nat_of_ascii c ≤ 90)%nat.
Proof.
  destruct x as [|c [|c' x]].
  - split; [done|]. by intros (c & ? & _).
  - unfold String.leb. simpl. unfold Ascii.compare, nat_of_ascii.
    change (N_of_ascii "A") with 65%N. change (N_of_ascii "Z") with 90%N.
    split.
    + intros E. exists c. split; [done|].
      destruct (N.compare_spec 65 (N_of_ascii c)),
               (N.compare_spec (N_of_ascii c) 90); try discriminate E; lia.
    + intros (c0 & [= <-] & Hr).
      destruct (N.compare_spec 65 (N_of_ascii c)),
               (N.compare_spec (N_of_ascii c) 90); try reflexivity; lia.
  - split; [done|]. by intros (c0 & ? & _).
Qed.

Lemma elem_of_dir self x :
  x ∈ SimpleAB.dir self ↔ is_Some (BaseAB.fields self !! x) ∨ x ∈ SimpleAB.inherited.
Proof.
  unfold SimpleAB.dir. rewrite merge_sort_Permutation, elem_of_elements.
  by rewrite elem_of_union, elem_of_dom, elem_of_list_to_set.
Qed.

Lemma inherited_long c : String c "" ∉ SimpleAB.inherited.
Proof.
  unfold SimpleAB.inherited. intros Hin.
  repeat (apply elem_of_cons in Hin as [Hin|Hin]; [discriminate Hin|]).
  by apply not_elem_of_nil in Hin.
Qed.

(** With a collaborator attached, the constructor of a [SimpleAB]
    calls [create] with the name and the allowed sides. *)
Lemma simple_init_attached class_name
    (members : gmap string (SimpleAB.member V Args St)) (identity : Identity) l w :
  BaseAB.__init__ class_name members identity (Some l) w
  = let self := {| BaseAB.identity := identity; BaseAB.storage := Some l;
                   BaseAB._side := None; BaseAB.name := class_name;
                   BaseAB.fields := members |} in
    let '(r, st) := Storage.create class_name (Some (SimpleAB.allowed_sides self))
                                   (heap w l) in
    (match r with Return _ => Return self | Raise e => Raise e end,
     update_storage w l st).
Proof.
  unfold BaseAB.__init__, bind, of_outcome, ret, on_storage. simpl.
  by destruct (Storage.create _ _ _) as [[[]|e] st].
Qed.

(** C7, amended.  The allowed sides of a [SimpleAB] are exactly the
    names of one character in ['A'..'Z'] that the instance binds,
    whether to a behaviour or to something that cannot be called; for
    a name of one character that is bound to something that cannot be
    called (or to nothing), an allowed side among them, [apply_side]
    raises [ABTestError]. *)
Theorem simple_allowed_sides self x :
  (x ∈ SimpleAB.allowed_sides self ↔
   (∃ c, x = String c "" ∧ (65 ≤ nat_of_ascii c ≤ 90)%nat) ∧
   is_Some (BaseAB.fields self !! x)) ∧
  (∀ args w, String.length x = 1%nat →
     SimpleAB.callable (BaseAB.fields self !! x) = false →
     SimpleAB.apply_side self x args w = (Raise (SimpleAB.not_implemented self x), w)).
Proof.
  split.
  - unfold SimpleAB.allowed_sides.
    rewrite list_elem_of_In, filter_In, <- list_elem_of_In, upper_letter, elem_of_dir.
    split.
    + intros [[Hf|Hi] (c & -> & Hc)].
      * split; [by exists c|done].
      * by apply inherited_long in Hi.
    + intros [Hc Hf]. split; [by left|done].
  - intros args w _ Hcall. unfold SimpleAB.apply_side. by rewrite Hcall.
Qed.

End SimpleAB_properties.

(** * Examples *)

Section Examples.
Import Recorder Examples.
Local Existing Instance Recorder.

(** An outcome with the state that the call itself reaches. *)
Lemma with_own_state {A Σ} (x : outcome A * Σ) (r : outcome A) :
  x.1 = r → x = (r, x.2).
Proof. destruct x; simpl; congruence. Qed.

(** The scenarios of the docstrings. *)
Example simple_docstring :
  let self := simple None {[ "A" := says "Side A"; "B" := says "Side B";
                             "C" := says "Side C" ]} in
  SimpleAB.allowed_sides self = ["A"; "B"; "C"] ∧
  (BaseAB.test () (Some "C") (self, fresh)).1 = Return "Side C" ∧
  (BaseAB.test () None (self, fresh)).1 = Return "Side A" ∧
  BaseAB.current_side (BaseAB.test () None (self, fresh)).2.1 = Some "A".
Proof. repeat split. Qed.

Example configurable_docstring :
  let made := ConfigurableAB.__init__ None None (Some "MyTest") (Some ab_sides)
                                      (Some (fun _ : () => ret (Some "A"))) fresh in
  made.1 = Return (configurable None ab_sides (Some (fun _ => ret (Some "A")))) ∧
  BaseAB.allowed_sides (configurable None ab_sides None) = Return (Some ["A"; "B"]) ∧
  (BaseAB.test () None
     (configurable None ab_sides (Some (fun _ => ret (Some "A"))), fresh)).1
    = Return "Side A" ∧
  BaseAB.current_side
    (BaseAB.test () None
       (configurable None ab_sides (Some (fun _ => ret (Some "A"))), fresh)).2.1
    = Some "A".
Proof. repeat split. Qed.

Example quick_test_docstring :
  (ConfigurableAB.quick_test (Some "MyTest") (Some ab_sides) None
                             (None : option string) None () fresh).1
    = Return "Side A" ∧
  (ConfigurableAB.quick_test (Some "MyTest") (Some ab_sides) None
                             (None : option string) None ()
                             {| heap := heap fresh; tape := fun i => S i |}).1
    = Return "Side B" ∧
  (ConfigurableAB.quick_test (Some "MyTest") (Some ab_sides) None
                             (None : option string) (Some 0) () fresh).1
    = Raise (AttributeError "sides").
Proof. repeat split. Qed.

(** A collaborator whose [set_side] fails: the exception reaches the
    caller, after the side was assigned. *)
Example persistence_failure :
  let self := configurable (Some 0) ab_sides None in
  (BaseAB.test (H := Broken) () (Some "B") (self, fresh)).1 = Raise (Foreign "IOError") ∧
  BaseAB.current_side (BaseAB.test (H := Broken) () (Some "B") (self, fresh)).2.1
    = Some "B".
Proof. repeat split. Qed.

(** C1, at [force_side=''] with [''] a key of the mapping: the forced
    side is in [allowed_sides], yet [test] raises and no side is
    current. *)
Lemma configurable_forced_empty_side :
  let self := configurable None {[ "" := "Side" ]} None in
  BaseAB.allowed_sides self = Return (Some [""]) ∧
  ({[ "" := "Side" ]} : gmap string string) !! "" = Some "Side" ∧
  (BaseAB.test () (Some "") (self, fresh)).1
    = Raise (BaseAB.unknown_side self (Some "")) ∧
  (BaseAB.test () (Some "") (self, fresh)).1 ≠ Return "Side" ∧
  BaseAB.current_side (BaseAB.test () (Some "") (self, fresh)).2.1 = None.
Proof. vm_compute. repeat split; discriminate. Qed.

(** C1, amended, on an instance with a collaborator and
    [force_side='B']. *)
Lemma configurable_test_forced_witness :
  (BaseAB.test () (Some "B") (configurable (Some 0) ab_sides None, fresh)).1
    = Return "Side B" ∧
  BaseAB.current_side
    (BaseAB.test () (Some "B") (configurable (Some 0) ab_sides None, fresh)).2.1
    = Some "B".
Proof.
  apply (configurable_test_forced (configurable (Some 0) ab_sides None) fresh ()
                                  ab_sides "B" "Side B").
  - reflexivity.
  - reflexivity.
  - reflexivity.
  - discriminate.
  - intros l _. reflexivity.
Defined.

(** C4, on an instance whose name was left unset and on one whose
    mapping is empty. *)
Lemma test_configuration_error_witness :
  let unnamed := ConfigurableAB.bind_name (configurable None ab_sides None) None in
  let sideless := configurable None ∅ None in
  (∃ e, BaseAB.test () None (unnamed, fresh) = (Raise e, (unnamed, fresh)) ∧
        BaseAB.ConfigurationError unnamed e) ∧
  (∃ e, BaseAB.test () (Some "A") (sideless, fresh) = (Raise e, (sideless, fresh)) ∧
        BaseAB.ConfigurationError sideless e).
Proof.
  split; apply test_configuration_error.
  - left. reflexivity.
  - right. exists (Some []). split; reflexivity.
Defined.

(** C5, at [force_side=''], which is not in [allowed_sides]: [test]
    returns the value of a freshly selected side. *)
Lemma forced_empty_side_selects :
  let self := configurable None {[ "A" := "Side A" ]} None in
  BaseAB.allowed_sides self = Return (Some ["A"]) ∧
  ("" ∉ ["A"]) ∧
  (BaseAB.test () (Some "") (self, fresh)).1 = Return "Side A" ∧
  BaseAB.current_side (BaseAB.test () (Some "") (self, fresh)).2.1 = Some "A".
Proof.
  split; [reflexivity|]. split; [|split; reflexivity].
  apply (bool_decide_eq_false _). reflexivity.
Qed.

(** C5, amended, at [force_side='C'] with sides ['A'] and ['B']. *)
Lemma test_forced_unknown_witness :
  let self := configurable None ab_sides None in
  ∃ e, BaseAB.test () (Some "C") (self, fresh) = (Raise e, (self, fresh)) ∧
       BaseAB.ValidationError self e ∧
       BaseAB.current_side (BaseAB.test () (Some "C") (self, fresh)).2.1
       = BaseAB.current_side self.
Proof.
  apply (test_forced_unknown (configurable None ab_sides None) fresh () "C"
                             (ConfigurableAB.keys ab_sides)).
  - reflexivity.
  - reflexivity.
  - discriminate.
  - discriminate.
  - apply (bool_decide_eq_false _). reflexivity.
Defined.

(** C2, on a call that returns and on a call whose selector picks a
    side that is not allowed. *)
Lemma test_side_allowed_witness :
  let self := simple None ab_members in
  let stray := configurable None ab_sides (Some (fun _ => ret (Some "X"))) in
  (∃ s sides,
     BaseAB.current_side (BaseAB.test () (Some "A") (self, fresh)).2.1 = Some s ∧
     BaseAB.allowed_sides (BaseAB.test () (Some "A") (self, fresh)).2.1
       = Return (Some sides) ∧ s ∈ sides) ∧
  (∃ e, BaseAB.test () None (stray, fresh) = (Raise e, (stray, fresh)) ∧
        BaseAB.ValidationError stray e).
Proof.
  split.
  - apply (proj1 (test_side_allowed (simple None ab_members) fresh () (Some "A"))
                 "Side A" _ (BaseAB.test () (Some "A") (simple None ab_members, fresh)).2.2).
    reflexivity.
  - apply (proj2 (test_side_allowed
                    (configurable None ab_sides (Some (fun _ => ret (Some "X"))))
                    fresh () None)
                 (Some "X") fresh (ConfigurableAB.keys ab_sides)).
    + reflexivity.
    + reflexivity.
    + reflexivity.
    + intros s [= <-]. apply (bool_decide_eq_false _). reflexivity.
Defined.


(** C3, at a stored side [''] that is in [allowed_sides]: the
    selection strategy is invoked, and [test] settles on what it
    selects. *)
Lemma stored_empty_side_selects :
  let self := listed (Some 0) [""; "B"] in
  let w := holding "" in
  (Storage.get_side (BaseAB.identity self) (BaseAB.name self) (heap w 0)).1
    = Return (Some "") ∧
  BaseAB.allowed_sides (V := string) (Args := ()) (St := list event) self
    = Return (Some [""; "B"]) ∧
  "" ∈ [""; "B"] ∧
  BaseAB.current_side (BaseAB.test () None (self, w)).2.1 = Some "B" ∧
  (BaseAB.test () None (self, w)).1 = Return "Side B" ∧
  (BaseAB.test (Variant0 := BaseAB.with_select_side Listed.variant
                              (fun _ _ => raise NotImplementedError))
               () None (self, w)).1 = Raise NotImplementedError.
Proof.
  split; [reflexivity|]. split; [reflexivity|]. split; [by left|].
  split; [reflexivity|]. split; reflexivity.
Qed.

(** C3, amended: a forced side over a stored one, a stored side over
    selection, selection when nothing is stored, and a second call on
    the collaborator that the first call persisted ['A'] to. *)
Lemma test_precedence_witness :
  let self := simple (Some 0) ab_members in
  let first := BaseAB.test () None (self, fresh) in
  BaseAB.test () (Some "B") (self, holding "A")
    = BaseAB.conclude () (Some "B") (self, holding "A") ∧
  (BaseAB.test () None (self, holding "B")
     = BaseAB.conclude () (Some "B")
         (self, update_storage (holding "B") 0
                  [SideRead None (Some "MyTest"); SideSet None (Some "MyTest") "B"]) ∧
   (∀ select,
      BaseAB.test (Variant0 := BaseAB.with_select_side SimpleAB.variant select)
                  () None (self, holding "B")
      = BaseAB.test () None (self, holding "B")) ∧
   BaseAB.current_side (BaseAB.test () None (self, holding "B")).2.1 = Some "B" ∧
   (BaseAB.test () None (self, holding "B")).1 = Return "Side B") ∧
  BaseAB.test () None (simple None ab_members, fresh)
    = (side <- BaseAB.lift (BaseAB.select_side (simple None ab_members) ()) ;;
       BaseAB.conclude () side) (simple None ab_members, fresh) ∧
  (first.1 = Return "Side A" ∧
   BaseAB.current_side (BaseAB.test () None (self, first.2.2)).2.1 = Some "A" ∧
   ∀ select,
     BaseAB.test (Variant0 := BaseAB.with_select_side SimpleAB.variant select)
                 () None (self, first.2.2)
     = BaseAB.test () None (self, first.2.2)).
Proof.
  intros self first.
  assert (BaseAB.configured self = Return ()) as Hc by reflexivity.
  assert (BaseAB.configured (simple None ab_members) = Return ()) as Hc' by reflexivity.
  split; [|split; [|split]].
  - apply (proj1 (test_precedence self (holding "A") () Hc)). discriminate.
  - destruct (proj1 (proj2 (test_precedence self (holding "B") () Hc)) None 0 "B"
                    [SideRead None (Some "MyTest"); SideSet None (Some "MyTest") "B"])
      as (Hstored & Hsel & Hside); [reflexivity..|discriminate|].
    split; [exact Hstored|]. split; [exact Hsel|].
    destruct (Hside (SimpleAB.allowed_sides self)) as [Hcur Hval];
      [reflexivity|by right; left|].
    split; [exact Hcur|].
    exact (Hval _ eq_refl).
  - apply (proj1 (proj2 (proj2 (test_precedence _ fresh () Hc'))) None); reflexivity.
  - split; [reflexivity|].
    pose proof (proj2 (proj2 (proj2 (test_precedence self fresh () Hc)))
                      None "Side A" first.2.1 first.2.2 0 "A"
                      (SideRead None (Some "MyTest") :: heap first.2.2 0) self ())
      as Hround.
    destruct Hround as (_ & _ & Hcur & Hsel); [reflexivity..|].
    split; [exact Hcur|exact Hsel].
Defined.

(** C6, on a [SimpleAB] whose ['A'] is not callable: [test] raises,
    and [current_side], [None] before the call, is ['A'] after it. *)
Lemma failed_call_leaves_side :
  let self := simple None {[ "A" := SimpleAB.Data ]} in
  BaseAB.current_side self = None ∧
  (BaseAB.test () None (self, fresh)).1 = Raise (SimpleAB.not_implemented self "A") ∧
  BaseAB.current_side (BaseAB.test () None (self, fresh)).2.1 = Some "A".
Proof. split; [reflexivity|]. split; reflexivity. Qed.

(** C6, amended, on three calls: ['B'] forced, ['X'] forced and
    refused, then ['A'] selected, whose member cannot be called. *)
Lemma current_side_last_accepted_witness :
  let self := simple None {[ "A" := SimpleAB.Data; "B" := says "Side B" ]} in
  let calls := [((), Some "B"); ((), Some "X"); ((), None)] in
  (BaseAB.current_side (BaseAB.run calls (self, fresh)).1
     = BaseAB.last_accepted calls (self, fresh) None ∧
   BaseAB.last_accepted calls (self, fresh) None = Some "A") ∧
  (BaseAB.accepted () (Some "B") (self, fresh)
     = BaseAB.current_side (BaseAB.test () (Some "B") (self, fresh)).2.1 ∧
   is_Some (BaseAB.current_side (BaseAB.test () (Some "B") (self, fresh)).2.1)) ∧
  (BaseAB.test () (Some "X") (self, fresh)).2.1 = self ∧
  BaseAB.current_side (simple (Some 0) ab_members) = None.
Proof.
  intros self calls. split; [|split; [|split]].
  - split; [|reflexivity].
    apply (proj1 (current_side_last_accepted calls (self, fresh))).
  - apply (proj1 (proj2 (current_side_last_accepted [] (self, fresh)))
                 () (Some "B") "Side B").
    apply with_own_state. reflexivity.
  - apply (proj1 (proj2 (proj2 (current_side_last_accepted [] (self, fresh))))).
    reflexivity.
  - apply (proj2 (proj2 (proj2 (current_side_last_accepted [] (self, fresh))))
                 (Some "MyTest") ab_members None (Some 0) fresh
                 (simple (Some 0) ab_members)
                 (BaseAB.__init__ (Some "MyTest") ab_members None (Some 0) fresh).2).
    apply with_own_state. reflexivity.
Defined.

(** C7, on a [SimpleAB] whose ['A'] is not callable: ['A'] is an
    allowed side. *)
Lemma data_member_allowed :
  let self := simple None {[ "A" := SimpleAB.Data ]} in
  "A" ∈ SimpleAB.allowed_sides self ∧
  SimpleAB.callable (BaseAB.fields self !! "A") = false.
Proof. split; [|reflexivity]. by left. Qed.

(** C7, amended, at ['A'] bound to something that cannot be called. *)
Lemma simple_allowed_sides_witness :
  let self := simple None {[ "A" := SimpleAB.Data; "B" := says "Side B" ]} in
  ("A" ∈ SimpleAB.allowed_sides self ↔
   (∃ c, "A" = String c "" ∧ (65 ≤ nat_of_ascii c ≤ 90)%nat) ∧
   is_Some (BaseAB.fields self !! "A")) ∧
  SimpleAB.apply_side self "A" () fresh
    = (Raise (SimpleAB.not_implemented self "A"), fresh).
Proof.
  intros self. split.
  - apply (proj1 (simple_allowed_sides self "A")).
  - apply (proj2 (simple_allowed_sides self "A")); reflexivity.
Defined.

(** C8, with the collaborators of [Recorder]: the constructor raises,
    and the collaborator has seen no call. *)
Lemma configurable_init_attached_example :
  let r := ConfigurableAB.__init__ (Args := ()) None (Some 0) (Some "MyTest")
                                   (Some ab_sides) None fresh in
  r.1 = Raise (AttributeError "sides") ∧ heap r.2 0 = [].
Proof. split; reflexivity. Qed.

(** C9, after [test(force_side='A')]: [record()] hands [None] to the
    collaborator, not the current side ['A']. *)
Lemma record_passes_none :
  let σ := (BaseAB.test () (Some "A") (simple (Some 0) ab_members, fresh)).2 in
  BaseAB.current_side σ.1 = Some "A" ∧
  heap (BaseAB.record None σ).2.2 0
    = [Recorded None (Some "MyTest") None; SideSet None (Some "MyTest") "A"].
Proof. split; reflexivity. Qed.

(** C9, amended, with and without a collaborator. *)
Lemma record_forwards_witness :
  let self := simple (Some 0) ab_members in
  BaseAB.record (Some "A") (self, fresh)
    = (Return (), (self, update_storage fresh 0 [Recorded None (Some "MyTest") (Some "A")])) ∧
  BaseAB.record (Some "A") (simple None ab_members, fresh)
    = (Return (), (simple None ab_members, fresh)).
Proof.
  intros self. split.
  - exact (proj1 (record_forwards self fresh (Some "A")) 0 eq_refl).
  - apply (proj2 (record_forwards (simple None ab_members) fresh (Some "A"))).
    reflexivity.
Defined.

End Examples.

(** * Further properties *)

Section BaseAB_calls.
Context {Identity V Args St : Type} `{!Storage.Storage Identity St}.
Context {D : Type} {C : BaseAB.Variant Identity V Args St D}.
Implicit Types (self : BaseAB.instance Identity D) (w : World St)
  (args : Args) (side force_side : option string).

(** X1.  [test] rebinds no attribute but [_side]: after any sequence of
    calls, returned or raised, the identity, the collaborator, the name
    and what the subclass added are the ones the instance had, and so
    are its allowed sides. *)
Theorem run_keeps_instance calls (σ : BaseAB.instance Identity D * World St) :
  BaseAB.identity (BaseAB.run calls σ).1 = BaseAB.identity σ.1 ∧
  BaseAB.storage (BaseAB.run calls σ).1 = BaseAB.storage σ.1 ∧
  BaseAB.name (BaseAB.run calls σ).1 = BaseAB.name σ.1 ∧
  BaseAB.fields (BaseAB.run calls σ).1 = BaseAB.fields σ.1 ∧
  BaseAB.allowed_sides (BaseAB.run calls σ).1 = BaseAB.allowed_sides σ.1.
Proof.
  revert σ. induction calls as [|[args force_side] calls IH]; intros σ; [done|].
  simpl. destruct (IH (BaseAB.test args force_side σ).2) as (-> & -> & -> & -> & ->).
  rewrite test_instance.
  destruct (BaseAB.accepted args force_side σ) as [s|]; [|done].
  by rewrite BaseAB.allowed_sides_assign_side.
Qed.

(** X2.  A non-empty forced side that is allowed is persisted like a
    selected one: the collaborator is not asked for a stored side, its
    [set_side] gets the forced side, and if [set_side] raises, the
    exception reaches the caller with the forced side already
    current. *)
Theorem test_forced_persists self w args s sides l :
  truthy (BaseAB.name self) = true →
  BaseAB.allowed_sides self = Return (Some sides) →
  s ≠ "" → s ∈ sides →
  BaseAB.storage self = Some l →
  BaseAB.test args (Some s) (self, w) =
  match Storage.set_side (BaseAB.identity self) (BaseAB.name self) s (heap w l) with
  | (Return _, st) =>
      let '(r, w') := BaseAB.apply_side (BaseAB.assign_side self s) s args
                                        (update_storage w l st) in
      (r, (BaseAB.assign_side self s, w'))
  | (Raise e, st) => (Raise e, (BaseAB.assign_side self s, update_storage w l st))
  end.
Proof.
  intros Hn Ha Hs Hin Hst.
  assert (sides ≠ []) as Hne by (intros ->; by apply not_elem_of_nil in Hin).
  assert (BaseAB.validate self (Some s) = Return s) as Hv.
  { apply validate_Return. split; [done|]. split; [done|]. by exists sides. }
  rewrite test_stages, (configured_intro _ _ Hn Ha Hne), resolve_forced by done.
  rewrite conclude_validate, Hv, Hst. simpl. unfold on_storage.
  by destruct (Storage.set_side _ _ _ _) as [[[]|e] st].
Qed.

(** X3.  A stored side that is no longer allowed is not replaced: with
    no forced side, [test] raises the validation error, the selection
    strategy is not tried, nothing is assigned and the collaborator is
    only read. *)
Theorem test_stale_stored_side self w args force_side l S st' sides :
  BaseAB.configured self = Return () →
  truthy force_side = false →
  BaseAB.storage self = Some l →
  Storage.get_side (BaseAB.identity self) (BaseAB.name self) (heap w l)
    = (Return (Some S), st') →
  S ≠ "" →
  BaseAB.allowed_sides self = Return (Some sides) → S ∉ sides →
  BaseAB.test args force_side (self, w)
    = (Raise (BaseAB.unknown_side self (Some S)), (self, update_storage w l st')) ∧
  ∀ select,
    BaseAB.test (Variant0 := BaseAB.with_select_side C select) args force_side (self, w)
    = BaseAB.test args force_side (self, w).
Proof.
  intros Hc Hf Hst Hget HS Ha Hout. split.
  - rewrite test_stages, Hc, (resolve_stored _ _ _ _ _ _ _ Hf Hst Hget HS).
    rewrite conclude_validate, (validate_unknown _ _ _ Ha); [done|].
    by intros ? [= <-].
  - intros select. eapply test_select_irrelevant.
    + by apply resolve_stored.
    + by apply (resolve_stored (C := BaseAB.with_select_side C select)).
Qed.

(** X4.  The constructor of [BaseAB]: without a collaborator it returns
    the instance and changes nothing; with one, it touches no other
    collaborator and not the random generator, and an instance comes
    back only if [allowed_sides] could be read and the collaborator's
    [create] returned on the name and those sides.  The new instance
    has the identity and the collaborator given and no current side. *)
Theorem init_creates class_name (d : D) (identity : Identity) storage w :
  let r := BaseAB.__init__ class_name d identity storage w in
  tape r.2 = tape w ∧
  (∀ l', storage ≠ Some l' → heap r.2 l' = heap w l') ∧
  (storage = None → r.2 = w ∧ ∃ self, r.1 = Return self) ∧
  (∀ self, r.1 = Return self →
     BaseAB.identity self = identity ∧ BaseAB.storage self = storage ∧
     BaseAB.current_side self = None ∧ BaseAB.name self = class_name ∧
     BaseAB.fields self = d ∧
     ∀ l, storage = Some l →
       ∃ sides, BaseAB.allowed_sides self = Return sides ∧
                Storage.create class_name sides (heap w l) = (Return (), heap r.2 l)).
Proof.
  unfold BaseAB.__init__, bind, ret, of_outcome, on_storage.
  destruct storage as [l|]; simpl.
  - destruct (BaseAB.allowed_sides _) as [sides|e] eqn:Ha; simpl.
    + destruct (Storage.create class_name sides (heap w l)) as [[[]|e] st] eqn:Hcr; simpl.
      * split; [done|]. split.
        { intros l' Hl'. rewrite fn_lookup_insert_ne; [done|congruence]. }
        split; [done|]. intros self [= <-]. simpl. repeat (split; [done|]).
        intros ? [= <-]. exists sides. by rewrite Ha, fn_lookup_insert.
      * split; [done|]. split; [|done].
        intros l' Hl'. rewrite fn_lookup_insert_ne; [done|congruence].
    + done.
  - split; [done|]. split; [done|]. split; [by eauto|].
    intros self [= <-]. by repeat split.
Qed.

End BaseAB_calls.

Section Inherited.
Context {Identity V Args St : Type} `{!Storage.Storage Identity St}.
Implicit Types (w : World St) (args : Args) (force_side : option string).

(** X5.  [BaseAB] used as it stands has no sides: whatever the name,
    the forced side and the collaborator, [test] raises a
    configuration error and changes nothing; its extension points are
    not reached. *)
Theorem base_class_test (self : BaseAB.instance Identity ()) w args force_side :
  BaseAB.test (V := V) args force_side (self, w)
  = (Raise (if truthy (BaseAB.name self) then BaseAB.no_sides self
            else BaseAB.not_named), (self, w)).
Proof.
  rewrite test_stages. unfold BaseAB.configured. simpl.
  by destruct (truthy (BaseAB.name self)).
Qed.

(** X6.  A subclass that declares its sides and inherits [select_side]
    and [apply_side] from [BaseAB]: with nothing forced and nothing
    stored, [test] raises [NotImplementedError] and changes nothing;
    with an allowed side forced, [NotImplementedError] comes from
    [apply_side], after the side has become current and has been
    handed to the collaborator. *)
Theorem inherited_extension_points (self : BaseAB.instance Identity (list string))
    w args :
  truthy (BaseAB.name self) = true →
  BaseAB.fields self ≠ [] →
  (∀ force_side,
     truthy force_side = false → BaseAB.storage self = None →
     BaseAB.test (V := V) (Variant0 := Declared.variant) args force_side (self, w)
     = (Raise NotImplementedError, (self, w))) ∧
  (∀ s, s ≠ "" → s ∈ BaseAB.fields self →
     (BaseAB.storage self = None →
      BaseAB.test (V := V) (Variant0 := Declared.variant) args (Some s) (self, w)
      = (Raise NotImplementedError, (BaseAB.assign_side self s, w))) ∧
     (∀ l st,
        BaseAB.storage self = Some l →
        Storage.set_side (BaseAB.identity self) (BaseAB.name self) s (heap w l)
          = (Return (), st) →
        BaseAB.test (V := V) (Variant0 := Declared.variant) args (Some s) (self, w)
        = (Raise NotImplementedError,
           (BaseAB.assign_side self s, update_storage w l st)))).
Proof.
  intros Hn Hne.
  assert (BaseAB.configured (V := V) (Args := Args) (St := St)
            (Variant0 := Declared.variant) self = Return ()) as Hc.
  { by apply (configured_intro (C := Declared.variant) _ (BaseAB.fields self)). }
  split.
  - intros force_side Hf Hst.
    by rewrite test_stages, Hc, resolve_detached.
  - intros s Hs Hin.
    assert (BaseAB.validate (V := V) (Args := Args) (St := St)
              (Variant0 := Declared.variant) self (Some s) = Return s) as Hv.
    { apply validate_Return. split; [done|]. split; [done|].
      by exists (BaseAB.fields self). }
    split.
    + intros Hst. rewrite test_stages, Hc, resolve_forced by done.
      by rewrite conclude_validate, Hv, Hst.
    + intros l st Hst Hset. rewrite test_stages, Hc, resolve_forced by done.
      rewrite conclude_validate, Hv, Hst. simpl. unfold on_storage. by rewrite Hset.
Qed.

End Inherited.

Section Dummy.
Context {Identity V Args D : Type} {C : BaseAB.Variant Identity V Args () D}.
Implicit Types (self : BaseAB.instance Identity D) (w : World ())
  (args : Args) (force_side : option string).

(** X7.  [DummyStorage] remembers nothing: on a properly configured
    instance that holds one, every [test] call without a forced side
    goes to the selection strategy, whatever was persisted before; and
    [record] returns. *)
Theorem dummy_storage_forgets self w args force_side l :
  BaseAB.configured self = Return () →
  truthy force_side = false →
  BaseAB.storage self = Some l →
  BaseAB.test (H := DummyStorage.DummyStorage) args force_side (self, w)
  = (side <- BaseAB.lift (BaseAB.select_side self args) ;;
     BaseAB.conclude (H := DummyStorage.DummyStorage) args side)
      (self, update_storage w l ()) ∧
  ∀ side, (BaseAB.record (H := DummyStorage.DummyStorage) side (self, w)).1 = Return ().
Proof.
  intros Hc Hf Hst. split.
  - rewrite (test_stages (H := DummyStorage.DummyStorage)), Hc.
    assert (Storage.get_side (Storage := DummyStorage.DummyStorage)
              (BaseAB.identity self) (BaseAB.name self) (heap w l)
            = (Return None, ())) as Hget.
    { simpl. unfold ret. by destruct (heap w l). }
    rewrite (resolve_absent (H := DummyStorage.DummyStorage) self w args force_side
                            l None () Hf Hst Hget eq_refl).
    by rewrite select_then_conclude.
  - intros side. unfold BaseAB.record, bind, BaseAB.get_self. simpl. by rewrite Hst.
Qed.

End Dummy.

Section Choice.
Context {St : Type}.

(** [random.choice] on a sequence that is not empty: an element of the
    sequence, one number drawn, the collaborators left alone. *)
Lemma random_choice_elem (seq : list string) (w : World St) :
  seq ≠ [] →
  ∃ x, random_choice seq w
       = (Return x, {| heap := heap w; tape := fun i => tape w (S i) |}) ∧
       x ∈ seq.
Proof.
  intros Hne. unfold random_choice.
  assert (tape w 0 `mod` length seq < length seq) as Hlt.
  { apply Nat.mod_upper_bound. by destruct seq. }
  apply lookup_lt_is_Some_2 in Hlt as [x Hx]. rewrite Hx.
  exists x. split; [done|]. by eapply list_elem_of_lookup_2.
Qed.

(** Every element can be drawn. *)
Lemma random_choice_reaches (seq : list string) x :
  x ∈ seq →
  ∃ n, ∀ w : World St, tape w 0 = n → (random_choice seq w).1 = Return x.
Proof.
  intros [i Hi]%list_elem_of_lookup_1. exists i. intros w Hw.
  unfold random_choice. rewrite Hw, Nat.mod_small, Hi; [done|].
  by eapply lookup_lt_Some.
Qed.

End Choice.

Section SimpleAB_calls.
Context {Identity V Args St : Type} `{!Storage.Storage Identity St}.
Implicit Types (self : BaseAB.instance Identity (gmap string (SimpleAB.member V Args St)))
  (w : World St) (args : Args).

Lemma allowed_side_letter self x :
  x ∈ SimpleAB.allowed_sides self →
  x ≠ "" ∧ is_Some (BaseAB.fields self !! x).
Proof.
  unfold SimpleAB.allowed_sides.
  rewrite list_elem_of_In, filter_In, <- list_elem_of_In, upper_letter, elem_of_dir.
  intros [[Hf|Hi] (c & -> & Hc)].
  - done.
  - by apply inherited_long in Hi.
Qed.

(** X8.  [SimpleAB.select_side]: when the instance has a side, it
    returns one of the allowed sides, draws one number and leaves the
    collaborators alone; every allowed side is returned for some
    number drawn; with no allowed side it raises [IndexError].  No side
    is listed twice in what it draws from. *)
Theorem simple_select_side self args w :
  (SimpleAB.allowed_sides self ≠ [] →
   ∃ x, SimpleAB.select_side self args w
        = (Return (Some x), {| heap := heap w; tape := fun i => tape w (S i) |}) ∧
        x ∈ SimpleAB.allowed_sides self) ∧
  (∀ x, x ∈ SimpleAB.allowed_sides self →
        ∃ n, ∀ w0 : World St, tape w0 0 = n →
             (SimpleAB.select_side self args w0).1 = Return (Some x)) ∧
  (SimpleAB.allowed_sides self = [] →
   (SimpleAB.select_side self args w).1 = Raise IndexError) ∧
  NoDup (SimpleAB.allowed_sides self).
Proof.
  unfold SimpleAB.select_side, bind, ret. split; [|split; [|split]].
  - intros Hne. destruct (random_choice_elem _ w Hne) as (x & -> & Hin). by exists x.
  - intros x Hin. destruct (random_choice_reaches (St := St) _ x Hin) as [n Hn].
    exists n. intros w0 Hw0. specialize (Hn w0 Hw0).
    destruct (random_choice _ w0) as [[y|e] w']; simpl in *; congruence.
  - intros ->. done.
  - unfold SimpleAB.allowed_sides, SimpleAB.dir.
    apply NoDup_ListNoDup, List.NoDup_filter, NoDup_ListNoDup.
    rewrite merge_sort_Permutation. apply NoDup_elements.
Qed.

(** X9.  On a named [SimpleAB] with at least one side and no
    collaborator, [test] without a forced side selects an allowed side,
    which becomes current, and returns or raises as [apply_side] does
    for it: the validation does not refuse a selected side, and
    [random.choice] does not fail. *)
Theorem simple_test_selects self w args force_side :
  truthy (BaseAB.name self) = true →
  SimpleAB.allowed_sides self ≠ [] →
  BaseAB.storage self = None →
  truthy force_side = false →
  ∃ x, x ∈ SimpleAB.allowed_sides self ∧
       BaseAB.current_side (BaseAB.test args force_side (self, w)).2.1 = Some x ∧
       (BaseAB.test args force_side (self, w)).1
       = (SimpleAB.apply_side (BaseAB.assign_side self x) x args
            {| heap := heap w; tape := fun i => tape w (S i) |}).1.
Proof.
  intros Hn Hne Hst Hf.
  assert (BaseAB.configured self = Return ()) as Hc.
  { by apply (configured_intro _ (SimpleAB.allowed_sides self)). }
  destruct (random_choice_elem _ w Hne) as (x & Hx & Hin).
  exists x. split; [done|].
  assert (BaseAB.validate self (Some x) = Return x) as Hv.
  { apply validate_Return. split; [done|]. split; [by apply (allowed_side_letter self)|].
    by exists (SimpleAB.allowed_sides self). }
  rewrite test_stages, Hc, resolve_detached by done.
  simpl. unfold SimpleAB.select_side, bind, ret. rewrite Hx.
  rewrite conclude_validate, Hv, Hst. simpl.
  by destruct (SimpleAB.apply_side _ _ _ _).
Qed.

(** X10.  On a named [SimpleAB], forcing a side whose member is a
    behaviour calls that behaviour with the arguments of [test], once
    an attached collaborator has persisted the side, and returns what
    it returns; the forced side is then current. *)
Theorem simple_test_forced self w args x body :
  truthy (BaseAB.name self) = true →
  x ∈ SimpleAB.allowed_sides self →
  BaseAB.fields self !! x = Some (SimpleAB.Behaviour body) →
  (∀ l, BaseAB.storage self = Some l →
        (Storage.set_side (BaseAB.identity self) (BaseAB.name self) x (heap w l)).1
        = Return ()) →
  let w' := match BaseAB.storage self with
            | Some l => update_storage w l
                          (Storage.set_side (BaseAB.identity self) (BaseAB.name self)
                                            x (heap w l)).2
            | None => w
            end in
  (BaseAB.test args (Some x) (self, w)).1 = (body args w').1 ∧
  BaseAB.current_side (BaseAB.test args (Some x) (self, w)).2.1 = Some x.
Proof.
  intros Hn Hin Hb Hset. simpl.
  destruct (allowed_side_letter self x Hin) as [Hx _].
  assert (BaseAB.configured self = Return ()) as Hc.
  { apply (configured_intro _ (SimpleAB.allowed_sides self)); [done..|].
    intros E. rewrite E in Hin. by apply not_elem_of_nil in Hin. }
  assert (BaseAB.validate self (Some x) = Return x) as Hv.
  { apply validate_Return. split; [done|]. split; [done|].
    by exists (SimpleAB.allowed_sides self). }
  rewrite test_stages, Hc, resolve_forced, conclude_validate, Hv by done.
  simpl. unfold SimpleAB.apply_side. simpl. rewrite Hb. simpl.
  destruct (BaseAB.storage self) as [l|].
  - specialize (Hset l eq_refl). unfold on_storage, update_storage.
    destruct (Storage.set_side _ _ _ _) as [r st]. simpl in *. subst r.
    by destruct (body args _).
  - by destruct (body args w).
Qed.

End SimpleAB_calls.

Section ConfigurableAB_calls.
Context {Identity V Args St : Type} `{!Storage.Storage Identity St}.
Implicit Types (self : BaseAB.instance Identity (ConfigurableAB.config V Args St))
  (w : World St) (args : Args) (d : gmap string V) (force_side : option string).

(** X11.  [ConfigurableAB.allowed_sides] on a constructed instance does
    not raise; it lists the keys of the mapping, each once, and is
    empty exactly when the mapping is [None] or has no key. *)
Theorem configurable_sides_are_keys self sides0 :
  ConfigurableAB.sides (BaseAB.fields self) = Bound sides0 →
  ∃ l, BaseAB.allowed_sides self = Return (Some l) ∧
       NoDup l ∧
       (∀ x, x ∈ l ↔ ∃ d, sides0 = Some d ∧ is_Some (d !! x)) ∧
       (l = [] ↔ truthy sides0 = false).
Proof.
  intros Hs. simpl. unfold ConfigurableAB.allowed_sides. rewrite Hs. simpl.
  destruct sides0 as [d|].
  - cbv [truthy option_truth]. unfold truthy, dict_truth.
    case_bool_decide as Hd; simpl.
    + subst d. exists []. split; [done|]. split; [constructor|]. split; [|done].
      intros x. split; [by intros ?%not_elem_of_nil|].
      intros (d & [= <-] & Hx). rewrite lookup_empty in Hx. by destruct Hx.
    + exists (ConfigurableAB.keys d). split; [done|].
      split; [apply NoDup_fst_map_to_list|]. split.
      * intros x. rewrite elem_of_keys. split; [by eauto|]. by intros (? & [= <-] & ?).
      * split; [|done]. unfold ConfigurableAB.keys. intros E.
        apply fmap_nil_inv in E. by apply map_to_list_empty_iff in E.
  - exists []. split; [done|]. split; [constructor|]. split; [|done].
    intros x. split; [by intros ?%not_elem_of_nil|]. by intros (? & ? & ?).
Qed.

Lemma configurable_configured self d :
  truthy (BaseAB.name self) = true →
  ConfigurableAB.sides (BaseAB.fields self) = Bound (Some d) → d ≠ ∅ →
  BaseAB.allowed_sides self = Return (Some (ConfigurableAB.keys d)) ∧
  BaseAB.configured self = Return ().
Proof.
  intros Hn Hs Hd.
  assert (BaseAB.allowed_sides self = Return (Some (ConfigurableAB.keys d))) as Ha.
  { simpl. unfold ConfigurableAB.allowed_sides. rewrite Hs. simpl.
    unfold truthy, dict_truth. by rewrite bool_decide_false. }
  split; [done|]. apply (configured_intro _ _ Hn Ha).
  unfold ConfigurableAB.keys. intros E. apply fmap_nil_inv in E.
  by apply map_to_list_empty_iff in E.
Qed.

(** What [conclude] comes to on an instance without a collaborator. *)
Lemma configurable_conclude self w args d side :
  ConfigurableAB.sides (BaseAB.fields self) = Bound (Some d) → d ≠ ∅ →
  BaseAB.storage self = None →
  BaseAB.conclude args side (self, w) =
  match side with
  | Some s =>
      if truthy s then
        match d !! s with
        | Some v => (Return v, (BaseAB.assign_side self s, w))
        | None => (Raise (BaseAB.unknown_side self side), (self, w))
        end
      else (Raise (BaseAB.unknown_side self side), (self, w))
  | None => (Raise (BaseAB.unknown_side self side), (self, w))
  end.
Proof.
  intros Hs Hd Hst. rewrite conclude_validate.
  unfold BaseAB.validate. destruct side as [s|]; [|done].
  destruct (truthy s) eqn:Ht; [|done]. simpl.
  unfold ConfigurableAB.allowed_sides. rewrite Hs. simpl.
  unfold truthy at 1, dict_truth. rewrite bool_decide_false by done. simpl.
  destruct (d !! s) as [v|] eqn:Hv.
  - rewrite bool_decide_true by (apply elem_of_keys; eauto). simpl.
    rewrite Hst. unfold ConfigurableAB.apply_side, bind, of_outcome, ret. simpl.
    rewrite Hs. simpl. by rewrite Hv.
  - rewrite bool_decide_false; [done|]. rewrite elem_of_keys, Hv. by intros [].
Qed.

(** The default selection on an instance without collaborator. *)
Lemma configurable_default_choice self w args force_side d :
  truthy (BaseAB.name self) = true →
  ConfigurableAB.sides (BaseAB.fields self) = Bound (Some d) →
  d ≠ ∅ → d !! "" = None →
  ConfigurableAB.selector (BaseAB.fields self) = Bound None →
  BaseAB.storage self = None →
  truthy force_side = false →
  ∃ s v, d !! s = Some v ∧
         BaseAB.test args force_side (self, w)
         = (Return v, (BaseAB.assign_side self s,
                       {| heap := heap w; tape := fun i => tape w (S i) |})).
Proof.
  intros Hn Hs Hd Hempty Hsel Hst Hf.
  destruct (configurable_configured self d Hn Hs Hd) as [Ha Hc].
  assert (ConfigurableAB.keys d ≠ []) as Hne.
  { unfold ConfigurableAB.keys. intros E. apply fmap_nil_inv in E.
    by apply map_to_list_empty_iff in E. }
  destruct (random_choice_elem _ w Hne) as (s & Hx & Hin).
  apply elem_of_keys in Hin as [v Hv]. exists s, v. split; [done|].
  rewrite test_stages, Hc, resolve_detached by done. simpl.
  unfold ConfigurableAB.select_side, bind, of_outcome. rewrite Hsel. simpl.
  simpl in Ha. rewrite Ha. simpl. unfold bind, ret. rewrite Hx.
  rewrite (configurable_conclude _ _ _ d) by done.
  assert (truthy s = true) as ->.
  { apply truthy_str. intros ->. congruence. }
  by rewrite Hv.
Qed.


(** X12.  A named [ConfigurableAB] without collaborator and without
    selector, whose mapping has a key and not the key ['']: [test]
    with no forced side returns the value of a key of the mapping, and
    that key is then current; it draws one number and raises
    nothing. *)
Theorem configurable_test_selects self w args force_side d :
  truthy (BaseAB.name self) = true →
  ConfigurableAB.sides (BaseAB.fields self) = Bound (Some d) →
  d ≠ ∅ → d !! "" = None →
  ConfigurableAB.selector (BaseAB.fields self) = Bound None →
  BaseAB.storage self = None →
  truthy force_side = false →
  ∃ s v, d !! s = Some v ∧
         BaseAB.test args force_side (self, w)
         = (Return v, (BaseAB.assign_side self s,
                       {| heap := heap w; tape := fun i => tape w (S i) |})).
Proof. apply configurable_default_choice. Qed.

(** X13.  A named [ConfigurableAB] without collaborator, with a
    selector: [test] with no forced side calls the selector with its
    own arguments and does not draw a number itself; what the selector
    raises reaches the caller; a key of the mapping that it returns
    becomes current and its value is returned; for anything else,
    [None] and [''] included, [test] raises the validation error and
    assigns nothing.  The lookup in the mapping does not fail. *)
Theorem configurable_test_selector self w args force_side d select :
  truthy (BaseAB.name self) = true →
  ConfigurableAB.sides (BaseAB.fields self) = Bound (Some d) →
  d ≠ ∅ →
  ConfigurableAB.selector (BaseAB.fields self) = Bound (Some select) →
  BaseAB.storage self = None →
  truthy force_side = false →
  BaseAB.test args force_side (self, w) =
  match select args w with
  | (Raise e, w') => (Raise e, (self, w'))
  | (Return side, w') =>
      match side with
      | Some s =>
          if truthy s then
            match d !! s with
            | Some v => (Return v, (BaseAB.assign_side self s, w'))
            | None => (Raise (BaseAB.unknown_side self side), (self, w'))
            end
          else (Raise (BaseAB.unknown_side self side), (self, w'))
      | None => (Raise (BaseAB.unknown_side self side), (self, w'))
      end
  end.
Proof.
  intros Hn Hs Hd Hsel Hst Hf.
  destruct (configurable_configured self d Hn Hs Hd) as [Ha Hc].
  rewrite test_stages, Hc, resolve_detached by done. simpl.
  unfold ConfigurableAB.select_side, bind, of_outcome. rewrite Hsel. simpl.
  destruct (select args w) as [[side|e] w']; [|done].
  by apply configurable_conclude.
Qed.

(** X14.  [quick_test] without a collaborator: an unset or empty name
    gives the configuration error of the name, a missing or empty
    mapping the one of the sides, both before anything is selected;
    with a name, a mapping that has a key and not the key [''], and no
    selector, it returns the value of a key of the mapping. *)
Theorem quick_test_detached name sides (identity : Identity) (no_args : Args) w :
  (truthy name = false →
   ∀ selector,
     ConfigurableAB.quick_test (V := V) name sides selector identity None no_args w
     = (Raise BaseAB.not_named, w)) ∧
  (truthy name = true → truthy sides = false →
   ∀ selector,
     ConfigurableAB.quick_test (V := V) name sides selector identity None no_args w
     = (Raise (ABTestError ("Sides not given for " +:+ quoted (fmt name) +:+ " test")),
        w)) ∧
  (∀ d, truthy name = true → sides = Some d → d ≠ ∅ → d !! "" = None →
   ∃ s v, d !! s = Some v ∧
          ConfigurableAB.quick_test name sides None identity None no_args w
          = (Return v, {| heap := heap w; tape := fun i => tape w (S i) |})).
Proof.
  unfold ConfigurableAB.quick_test. split; [|split].
  - intros Hn selector. rewrite configurable_init_detached, test_stages.
    unfold BaseAB.configured. simpl. by rewrite Hn.
  - intros Hn Hs selector. rewrite configurable_init_detached, test_stages.
    unfold BaseAB.configured. simpl. rewrite Hn. simpl.
    unfold ConfigurableAB.allowed_sides. simpl.
    destruct sides as [d|]; [|done].
    change (truthy (Some d)) with (truthy d) in Hs. by rewrite Hs.
  - intros d Hn -> Hd Hempty. rewrite configurable_init_detached.
    edestruct (configurable_default_choice) as (s & v & Hv & ->); [done..|].
    by exists s, v.
Qed.

End ConfigurableAB_calls.

(** * Further examples *)

Section More_examples.
Import Recorder Examples.
Local Existing Instance Recorder.

(** X2, at [force_side='B'] on an instance with a collaborator that
    holds ['A']. *)
Lemma test_forced_persists_witness :
  BaseAB.test () (Some "B") (simple (Some 0) ab_members, holding "A")
  = (Return "Side B",
     (BaseAB.assign_side (simple (Some 0) ab_members) "B",
      update_storage (holding "A") 0
        [SideSet None (Some "MyTest") "B"; SideSet None (Some "MyTest") "A"])).
Proof.
  exact (test_forced_persists (simple (Some 0) ab_members) (holding "A") () "B"
           ["A"; "B"] 0 eq_refl eq_refl ltac:(discriminate)
           ltac:(right; left) eq_refl).
Defined.

(** X3, with ['C'] stored for a test whose sides are ['A'] and ['B']. *)
Lemma test_stale_stored_side_witness :
  let self := simple (Some 0) ab_members in
  BaseAB.test () None (self, holding "C")
    = (Raise (BaseAB.unknown_side self (Some "C")),
       (self, update_storage (holding "C") 0
                [SideRead None (Some "MyTest"); SideSet None (Some "MyTest") "C"])) ∧
  ∀ select,
    BaseAB.test (Variant0 := BaseAB.with_select_side SimpleAB.variant select)
                () None (self, holding "C")
    = BaseAB.test () None (self, holding "C").
Proof.
  apply (test_stale_stored_side (simple (Some 0) ab_members) (holding "C") () None 0
           "C" _ ["A"; "B"]).
  - reflexivity.
  - reflexivity.
  - reflexivity.
  - reflexivity.
  - discriminate.
  - reflexivity.
  - apply (bool_decide_eq_false _). reflexivity.
Defined.

(** X4, for a [SimpleAB] with the collaborator at [0] and with none. *)
Lemma init_creates_witness :
  let r := BaseAB.__init__ (Some "MyTest") ab_members (None : option string)
                           (Some 0) fresh in
  heap r.2 1 = heap fresh 1 ∧
  (∃ sides, BaseAB.allowed_sides (simple (Some 0) ab_members) = Return sides ∧
            Storage.create (Some "MyTest") sides (heap fresh 0)
            = (Return (), heap r.2 0)) ∧
  (BaseAB.__init__ (Some "MyTest") ab_members (None : option string) None fresh).2
  = fresh.
Proof.
  intros r. split; [|split].
  - apply (proj1 (proj2 (init_creates (Some "MyTest") ab_members None (Some 0) fresh))).
    discriminate.
  - apply (proj2 (proj2 (proj2 (init_creates (Some "MyTest") ab_members None
                                             (Some 0) fresh)))
                 (simple (Some 0) ab_members)); reflexivity.
  - apply (proj1 (proj2 (proj2 (init_creates (Some "MyTest") ab_members None
                                             None fresh)))).
    reflexivity.
Defined.

(** X6, on sides ['A'] and ['B'] with the extension points of
    [BaseAB]. *)
Lemma inherited_extension_points_witness :
  BaseAB.test (V := string) (Variant0 := Declared.variant) () None
              (listed None ["A"; "B"], fresh)
    = (Raise NotImplementedError, (listed None ["A"; "B"], fresh)) ∧
  BaseAB.test (V := string) (Variant0 := Declared.variant) () (Some "B")
              (listed None ["A"; "B"], fresh)
    = (Raise NotImplementedError,
       (BaseAB.assign_side (listed None ["A"; "B"]) "B", fresh)) ∧
  BaseAB.test (V := string) (Variant0 := Declared.variant) () (Some "B")
              (listed (Some 0) ["A"; "B"], fresh)
    = (Raise NotImplementedError,
       (BaseAB.assign_side (listed (Some 0) ["A"; "B"]) "B",
        update_storage fresh 0 [SideSet None (Some "MyTest") "B"])).
Proof.
  split; [|split].
  - apply (proj1 (inherited_extension_points (V := string) (listed None ["A"; "B"])
                    fresh () eq_refl ltac:(discriminate))); reflexivity.
  - apply (proj2 (inherited_extension_points (V := string) (listed None ["A"; "B"])
                    fresh () eq_refl ltac:(discriminate)) "B");
      [discriminate|by right; left|reflexivity].
  - apply (proj2 (inherited_extension_points (V := string) (listed (Some 0) ["A"; "B"])
                    fresh () eq_refl ltac:(discriminate)) "B");
      [discriminate|by right; left|reflexivity..].
Defined.

(** X7, on a [SimpleAB] that holds a [DummyStorage]. *)
Lemma dummy_storage_forgets_witness :
  let self := DummyExamples.simple (Some 0) in
  BaseAB.test (H := DummyStorage.DummyStorage) () None (self, DummyExamples.quiet)
  = (side <- BaseAB.lift (BaseAB.select_side self ()) ;;
     BaseAB.conclude (H := DummyStorage.DummyStorage) () side)
      (self, update_storage DummyExamples.quiet 0 ()) ∧
  ∀ side, (BaseAB.record (H := DummyStorage.DummyStorage) side
                         (self, DummyExamples.quiet)).1 = Return ().
Proof.
  apply (dummy_storage_forgets (DummyExamples.simple (Some 0)) DummyExamples.quiet
                               () None 0); reflexivity.
Defined.

(** X8, on the sides ['A'] and ['B']. *)
Lemma simple_select_side_witness :
  let self := simple None ab_members in
  (∃ x, SimpleAB.select_side self () fresh
        = (Return (Some x), {| heap := heap fresh; tape := fun i => tape fresh (S i) |}) ∧
        x ∈ SimpleAB.allowed_sides self) ∧
  (∃ n, ∀ w0 : World (list event), tape w0 0 = n →
        (SimpleAB.select_side self () w0).1 = Return (Some "B")) ∧
  (SimpleAB.select_side (simple None ∅) () fresh).1 = Raise IndexError.
Proof.
  intros self. split; [|split].
  - apply (proj1 (simple_select_side self () fresh)).
    intros E. vm_compute in E. discriminate E.
  - apply (proj1 (proj2 (simple_select_side self () fresh)) "B").
    apply (bool_decide_unpack _). vm_compute. exact I.
  - apply (proj1 (proj2 (proj2 (simple_select_side (simple None ∅) () fresh)))).
    vm_compute. reflexivity.
Defined.

(** X9, on the sides ['A'] and ['B']. *)
Lemma simple_test_selects_witness :
  let self := simple None ab_members in
  ∃ x, x ∈ SimpleAB.allowed_sides self ∧
       BaseAB.current_side (BaseAB.test () None (self, fresh)).2.1 = Some x ∧
       (BaseAB.test () None (self, fresh)).1
       = (SimpleAB.apply_side (BaseAB.assign_side self x) x ()
            {| heap := heap fresh; tape := fun i => tape fresh (S i) |}).1.
Proof.
  apply (simple_test_selects (simple None ab_members) fresh () None).
  - reflexivity.
  - intros E. vm_compute in E. discriminate E.
  - reflexivity.
  - reflexivity.
Defined.

(** X10, at [force_side='B'] with a collaborator. *)
Lemma simple_test_forced_witness :
  let self := simple (Some 0) ab_members in
  (BaseAB.test () (Some "B") (self, fresh)).1 = Return "Side B" ∧
  BaseAB.current_side (BaseAB.test () (Some "B") (self, fresh)).2.1 = Some "B".
Proof.
  apply (simple_test_forced (simple (Some 0) ab_members) fresh () "B"
                            (fun _ => ret "Side B")).
  - reflexivity.
  - apply (bool_decide_unpack _). vm_compute. exact I.
  - reflexivity.
  - intros l _. reflexivity.
Defined.

(** X11, on the mapping of the docstring. *)
Lemma configurable_sides_are_keys_witness :
  ∃ l, BaseAB.allowed_sides (configurable None ab_sides None) = Return (Some l) ∧
       NoDup l ∧
       (∀ x, x ∈ l ↔ ∃ d, Some ab_sides = Some d ∧ is_Some (d !! x)) ∧
       (l = [] ↔ truthy (Some ab_sides) = false).
Proof.
  apply (configurable_sides_are_keys (configurable None ab_sides None) (Some ab_sides)).
  reflexivity.
Defined.

(** X12, on the mapping of the docstring. *)
Lemma configurable_test_selects_witness :
  let self := configurable None ab_sides None in
  ∃ s v, ab_sides !! s = Some v ∧
         BaseAB.test () None (self, fresh)
         = (Return v, (BaseAB.assign_side self s,
                       {| heap := heap fresh; tape := fun i => tape fresh (S i) |})).
Proof.
  apply (configurable_test_selects (configurable None ab_sides None) fresh () None
                                   ab_sides).
  - reflexivity.
  - reflexivity.
  - apply (bool_decide_eq_false _). reflexivity.
  - reflexivity.
  - reflexivity.
  - reflexivity.
  - reflexivity.
Defined.

(** X13, with [selector=lambda: 'A']. *)
Lemma configurable_test_selector_witness :
  let self := configurable None ab_sides (Some (fun _ => ret (Some "A"))) in
  BaseAB.test () None (self, fresh)
  = (Return "Side A", (BaseAB.assign_side self "A", fresh)).
Proof.
  intros self.
  rewrite (configurable_test_selector self fresh () None ab_sides
             (fun _ => ret (Some "A"))).
  - reflexivity.
  - reflexivity.
  - reflexivity.
  - apply (bool_decide_eq_false _). vm_compute. reflexivity.
  - reflexivity.
  - reflexivity.
  - reflexivity.
Defined.

(** X14, without a name, without sides, and as in the docstring. *)
Lemma quick_test_detached_witness :
  ConfigurableAB.quick_test (V := string) None (Some ab_sides) None
                            (None : option string) None () fresh
    = (Raise BaseAB.not_named, fresh) ∧
  (ConfigurableAB.quick_test (V := string) (Some "MyTest") (Some ∅) None
                             (None : option string) None () fresh).1
    = Raise (BaseAB.no_sides (configurable None ∅ None)) ∧
  ∃ s v, ab_sides !! s = Some v ∧
         ConfigurableAB.quick_test (Some "MyTest") (Some ab_sides) None
                                   (None : option string) None () fresh
         = (Return v, {| heap := heap fresh; tape := fun i => tape fresh (S i) |}).
Proof.
  split; [|split].
  - apply (proj1 (quick_test_detached None (Some ab_sides) None () fresh)).
    reflexivity.
  - rewrite (proj1 (proj2 (quick_test_detached (V := string) (Some "MyTest") (Some ∅)
                                               None () fresh))).
    + reflexivity.
    + reflexivity.
    + vm_compute. reflexivity.
  - apply (proj2 (proj2 (quick_test_detached (Some "MyTest") (Some ab_sides)
                                             None () fresh)) ab_sides).
    + reflexivity.
    + reflexivity.
    + apply (bool_decide_eq_false _). vm_compute. reflexivity.
    + reflexivity.
Defined.

End More_examples.
